(** * Account Relay (app.py): a shallow embedding and its contract

    The Flask handler [create_simple_account] and the broker client
    [AccountCreationAPI.create_account] are rendered as functions in a small
    state-and-exception monad.  Python values are the type [pyval]; a Python
    [dict] with string keys is a [gmap string pyval].  The broker endpoint is
    a Section variable: a function from the outbound call to what
    [requests.post] does with it (a response, or a raised exception). *)

From Stdlib Require Import ZArith String Ascii List Bool Lia.
From Stdlib Require SpecFloat.
From stdpp Require Import base option list strings gmap fin_maps.

Set Default Proof Using "Type".
Set Warnings "-register-all".
Local Open Scope string_scope.
Local Open Scope Z_scope.

(** ** Python values *)

(** The values that flow through the handler: what [json.loads] can build
    ([None], [bool], [int], [float], [str], [list], [dict] with [str] keys),
    which is also all the handler itself constructs.  A [str] is a sequence of
    code points; a character of a Rocq [string] stands for one code point
    below 256. *)
Inductive pyval : Type :=
  | PyNone
  | PyBool (b : bool)
  | PyInt (n : Z)
  | PyFloat (x : SpecFloat.spec_float)
  | PyStr (s : string)
  | PyList (l : list pyval)
  | PyDict (d : gmap string pyval).

(** [bool(v)]: Python truth value testing. *)
Definition truthy (v : pyval) : bool :=
  match v with
  | PyNone => false
  | PyBool b => b
  | PyInt n => negb (n =? 0)
  | PyFloat x => match x with SpecFloat.S754_zero _ => false | _ => true end
  | PyStr s => negb (Nat.eqb (String.length s) 0)
  | PyList l => negb (Nat.eqb (List.length l) 0)
  | PyDict d => negb (Nat.eqb (size d) 0)
  end.

(** ** [str.strip()] *)

(** [str.isspace] on one code point, for the code points below 256:
    TAB, LF, VT, FF, CR, FS, GS, RS, US, SPACE, NEL (0x85), NBSP (0xA0). *)
Definition isspace (c : ascii) : bool :=
  let n := N_of_ascii c in
  ((9 <=? n) && (n <=? 13) || (28 <=? n) && (n <=? 32)
   || (n =? 133) || (n =? 160))%N.

Fixpoint lstrip (s : string) : string :=
  match s with
  | String c s' => if isspace c then lstrip s' else s
  | EmptyString => EmptyString
  end.

(** [rstrip] keeps a character when it is not a space or when something
    that is kept follows it. *)
Fixpoint rstrip (s : string) : string :=
  match s with
  | String c s' =>
      match rstrip s' with
      | EmptyString => if isspace c then EmptyString else String c EmptyString
      | r => String c r
      end
  | EmptyString => EmptyString
  end.

Definition strip (s : string) : string := rstrip (lstrip s).

Fixpoint all_space (s : string) : bool :=
  match s with
  | String c s' => isspace c && all_space s'
  | EmptyString => true
  end.

(** ** Exceptions *)

(** The exception classes that can reach a handler of this program.  The
    [requests] classes keep their place in the class hierarchy:
    [ConnectTimeout] derives from both [ConnectionError] and [Timeout],
    [ReadTimeout] from [Timeout], and all of them from [RequestException].
    [JSONDecodeError] is [json.JSONDecodeError]; [RequestsJSONDecodeError] is
    the class of [requests], which derives from it and from
    [RequestException]. *)
Inductive exn_class : Type :=
  | AttributeError
  | TypeError
  | KeyError
  | BadRequest
  | Timeout
  | ConnectTimeout
  | ReadTimeout
  | ConnectionError
  | RequestException
  | JSONDecodeError
  | RequestsJSONDecodeError
  | RecursionError
  | ValueError
  | OtherException.

Record exn : Type := Exn { exn_cls : exn_class; exn_text : string }.

Definition is_Timeout (c : exn_class) : bool :=
  match c with Timeout | ConnectTimeout | ReadTimeout => true | _ => false end.

Definition is_ConnectionError (c : exn_class) : bool :=
  match c with ConnectionError | ConnectTimeout => true | _ => false end.

Definition is_RequestException (c : exn_class) : bool :=
  match c with
  | Timeout | ConnectTimeout | ReadTimeout | ConnectionError
  | RequestException | RequestsJSONDecodeError => true
  | _ => false
  end.

Definition is_JSONDecodeError (c : exn_class) : bool :=
  match c with JSONDecodeError | RequestsJSONDecodeError => true | _ => false end.

(** ** The world: the log and the outbound calls *)

Inductive level : Type := INFO | WARNING | ERROR.

(** An f-string is kept as its pieces: literal text and formatted values. *)
Inductive piece : Type :=
  | Text (s : string)
  | Fmt (v : pyval).

Definition log_record : Type := level * list piece.

(** One [requests.post(url, headers=..., data=..., timeout=...)].  [post_data]
    is the value handed to [json.dumps]; the body on the wire is its JSON
    text. *)
Record post_call : Type := PostCall {
  post_url : string;
  post_headers : gmap string string;
  post_data : pyval;
  post_timeout : Z
}.

(** What a call gives: a value, or a raised exception. *)
Inductive res (A : Type) : Type :=
  | Return (a : A)
  | Raise (e : exn).
Arguments Return {A} a.
Arguments Raise {A} e.

(** The [requests.Response] as far as the program reads it: the status, the
    headers, the raw [content], its decoding [text], and what
    [response.json()] does: it returns the decoded body or raises, a
    [JSONDecodeError] when the text is not JSON, something else (a
    [RecursionError], a [ValueError]) when decoding itself fails. *)
Record http_response : Type := HttpResponse {
  resp_status_code : Z;
  resp_headers : gmap string string;
  resp_content : string;
  resp_text : string;
  resp_json : res pyval
}.

Inductive outcome : Type :=
  | Responds (r : http_response)
  | Raises (e : exn).

Record world : Type := World {
  logged : list log_record;
  posted : list post_call
}.

Definition world0 : world := World [] [].

(** ** The monad *)

Definition M (A : Type) : Type := world -> res A * world.

Definition ret {A} (a : A) : M A := fun w => (Return a, w).

Definition bind {A B} (m : M A) (k : A -> M B) : M B :=
  fun w => match m w with
           | (Return a, w') => k a w'
           | (Raise e, w') => (Raise e, w')
           end.

Definition raise {A} (e : exn) : M A := fun w => (Raise e, w).

(** [try: body / except Exception as e: handler e] *)
Definition try_except {A} (body : M A) (handler : exn -> M A) : M A :=
  fun w => match body w with
           | (Return a, w') => (Return a, w')
           | (Raise e, w') => handler e w'
           end.

(** [try: body / except <classes> as e: handler e], for the classes that
    [catches] accepts; any other exception goes on. *)
Definition try_catch {A} (body : M A) (catches : exn_class -> bool)
    (handler : exn -> M A) : M A :=
  fun w => match body w with
           | (Return a, w') => (Return a, w')
           | (Raise e, w') =>
               if catches (exn_cls e) then handler e w' else (Raise e, w')
           end.

Notation "x <- m ;; k" := (bind m (fun x => k))
  (at level 100, m at next level, right associativity,
   format "'[v' x  <-  m  ;;  '/' k ']'").
Notation "m ;;; k" := (bind m (fun _ => k))
  (at level 100, right associativity, format "'[v' m  ;;;  '/' k ']'").

Definition logger (l : level) (msg : list piece) : M unit :=
  fun w => (Return tt, World (logged w ++ [(l, msg)]) (posted w)).

(** ** Python operations on values *)

Definition type_name (v : pyval) : string :=
  match v with
  | PyNone => "NoneType"
  | PyBool _ => "bool"
  | PyInt _ => "int"
  | PyFloat _ => "float"
  | PyStr _ => "str"
  | PyList _ => "list"
  | PyDict _ => "dict"
  end.

Definition no_attribute (v : pyval) (attr : string) : exn :=
  Exn AttributeError
      ("'" +:+ type_name v +:+ "' object has no attribute '" +:+ attr +:+ "'").

(** [v.get(k, dflt)]: only a [dict] has the method. *)
Definition py_get (v : pyval) (k : string) (dflt : pyval) : M pyval :=
  match v with
  | PyDict d => ret (default dflt (d !! k))
  | _ => raise (no_attribute v "get")
  end.

(** [v[k]] for a [str] key [k]. *)
Definition py_getitem (v : pyval) (k : string) : M pyval :=
  match v with
  | PyDict d =>
      match d !! k with
      | Some x => ret x
      | None => raise (Exn KeyError ("'" +:+ k +:+ "'"))
      end
  | PyStr _ => raise (Exn TypeError "string indices must be integers")
  | PyList _ => raise (Exn TypeError "list indices must be integers or slices, not str")
  | _ => raise (Exn TypeError ("'" +:+ type_name v +:+ "' object is not subscriptable"))
  end.

(** [v.strip()]: only a [str] has the method. *)
Definition py_strip (v : pyval) : M pyval :=
  match v with
  | PyStr s => ret (PyStr (strip s))
  | _ => raise (no_attribute v "strip")
  end.

(** [x in l] for integers. *)
Definition py_in (x : Z) (l : list Z) : bool := existsb (Z.eqb x) l.

(** [[x for x in l if p(x)]] where [p] may raise. *)
Fixpoint comprehension {A} (p : A -> M bool) (l : list A) : M (list A) :=
  match l with
  | [] => ret []
  | x :: l' =>
      b <- p x ;;
      rest <- comprehension p l' ;;
      ret (if b then x :: rest else rest)
  end.

(** ** Flask requests and responses *)

(** [req_get_json] is what [request.get_json()] does when [request.is_json]
    holds: it returns the decoded body, or raises [BadRequest] when the body
    does not decode. *)
Record request : Type := Request {
  req_method : string;
  req_is_json : bool;
  req_get_json : res pyval
}.

(** What the view function hands to Flask: [jsonify(v)] is a response with
    body [v] and status 200; returning [(jsonify(v), code)] sets the status. *)
Record flask_response : Type := FlaskResponse {
  body : pyval;
  status : pyval
}.

Definition jsonify (v : pyval) : flask_response := FlaskResponse v (PyInt 200).

Definition with_status (r : flask_response) (code : pyval) : flask_response :=
  FlaskResponse (body r) code.

(** ** The program *)

Section Relay.

(** What [requests.post] does with an outbound call. *)
Variable requests_post : post_call -> outcome.

Definition post (c : post_call) : M http_response :=
  fun w =>
    let w' := World (logged w) (posted w ++ [c]) in
    match requests_post c with
    | Responds r => (Return r, w')
    | Raises e => (Raise e, w')
    end.

(** *** [AccountCreationAPI] (app.py 22-86) *)

Definition base_url : string :=
  "https://broker-api-wl.match-trade.com/v1/accounts".

Definition default_headers : gmap string string :=
  {[ "Authorization" := "9_Qd-TWhdmywM76uEnoex33Lci3KD2gt0wX7wZcMSuM=";
     "Content-Type" := "application/json" ]}.

(** [create_account].  [json.dumps(account_data)] (line 34) is taken to
    succeed: the payload is built from decoded JSON values and stripped
    strings, and [post_data] stands for its JSON text.  The inner [try]
    around [response.json()] catches [json.JSONDecodeError] only. *)
Definition create_account (account_data : pyval) : M pyval :=
  try_except
    (logger INFO [Text "Attempting to create account..."] ;;;
     response <- post (PostCall base_url default_headers account_data 30) ;;
     logger INFO [Text "Match Trade API Response Status: ";
                  Fmt (PyInt (resp_status_code response))] ;;;
     logger INFO [Text "Response headers: ";
                  Fmt (PyDict (PyStr <$> resp_headers response))] ;;;
     response_data <-
       try_catch
         (if negb (Nat.eqb (String.length (resp_content response)) 0)
          then (fun w => (resp_json response, w))
          else ret (PyDict ∅))
         is_JSONDecodeError
         (fun _ => ret (PyDict {[ "raw_text" := PyStr (resp_text response) ]})) ;;
     ret (PyDict
            {[ "success" := PyBool (py_in (resp_status_code response) [200; 201]);
               "status_code" := PyInt (resp_status_code response);
               "data" := response_data;
               "message" :=
                 PyStr (if py_in (resp_status_code response) [200; 201]
                        then "Account created successfully"
                        else "Account creation failed") ]}))
    (fun e =>
       if is_Timeout (exn_cls e) then
         logger ERROR [Text "Request timeout"] ;;;
         ret (PyDict {[ "success" := PyBool false;
                        "error" := PyStr "Request timed out. Please try again.";
                        "status_code" := PyNone ]})
       else if is_ConnectionError (exn_cls e) then
         logger ERROR [Text "Connection error: "; Text (exn_text e)] ;;;
         ret (PyDict {[ "success" := PyBool false;
                        "error" := PyStr "Connection error. Please check your internet connection.";
                        "status_code" := PyNone ]})
       else if is_RequestException (exn_cls e) then
         logger ERROR [Text "Request error: "; Text (exn_text e)] ;;;
         ret (PyDict {[ "success" := PyBool false;
                        "error" := PyStr "Network error occurred. Please try again.";
                        "status_code" := PyNone ]})
       else
         logger ERROR [Text "Unexpected error: "; Text (exn_text e)] ;;;
         ret (PyDict {[ "success" := PyBool false;
                        "error" := PyStr "An unexpected error occurred. Please try again.";
                        "status_code" := PyNone ]})).

(** *** [create_simple_account] (app.py 112-190) *)

Definition required_fields : list string :=
  ["email"; "password"; "firstname"; "lastname"; "phoneNumber"].

Definition default_offer : string := "1a3d47dd-ea8c-4529-9e36-8a42499fcc69".

(** Line 144: [[field for field in required_fields if not data.get(field)]]. *)
Definition missing_fields (data : pyval) : M (list string) :=
  comprehension
    (fun field => v <- py_get data field PyNone ;; ret (negb (truthy v)))
    required_fields.

(** Lines 154-166: the dict display, its items evaluated top to bottom. *)
Definition account_data (data : pyval) : M pyval :=
  email <- (e <- py_getitem data "email" ;; py_strip e) ;;
  password <- py_getitem data "password" ;;
  offer <- py_get data "offer" (PyStr default_offer) ;;
  deposited <- py_get data "createAsDepositedAccount" (PyBool false) ;;
  firstname <- (f <- py_getitem data "firstname" ;; py_strip f) ;;
  lastname <- (l <- py_getitem data "lastname" ;; py_strip l) ;;
  phoneNumber <- (p <- py_getitem data "phoneNumber" ;; py_strip p) ;;
  ret (PyDict
         {[ "email" := email;
            "password" := password;
            "offer" := offer;
            "createAsDepositedAccount" := deposited;
            "personalDetails" :=
              PyDict {[ "firstname" := firstname; "lastname" := lastname ]};
            "contactDetails" := PyDict {[ "phoneNumber" := phoneNumber ]} ]}).

(** Lines 174-181: the HTTP status chosen from the service result. *)
Definition status_code (result : pyval) : M pyval :=
  success <- py_getitem result "success" ;;
  if truthy success then
    logger INFO [Text "Account created successfully"] ;;;
    ret (PyInt 200)
  else
    code <- py_get result "status_code" (PyInt 500) ;;
    let code := match code with PyNone => PyInt 500 | _ => code end in
    err <- py_get result "error" (PyStr "Unknown error") ;;
    logger ERROR [Text "Account creation failed: "; Fmt err] ;;;
    ret code.

Definition bad_request (msg : string) : flask_response :=
  with_status
    (jsonify (PyDict {[ "success" := PyBool false; "error" := PyStr msg ]}))
    (PyInt 400).

(** Line 132: [request.get_json()]. *)
Definition get_json (req : request) : M pyval :=
  fun w => (req_get_json req, w).

Definition create_simple_account (req : request) : M flask_response :=
  if String.eqb (req_method req) "OPTIONS" then
    logger INFO [Text "Handling CORS preflight request"] ;;;
    ret (jsonify (PyDict {[ "status" := PyStr "ok" ]}))
  else
    try_except
      (logger INFO [Text "Received "; Text (req_method req);
                    Text " request to /api/accounts/simple"] ;;;
       if negb (req_is_json req) then
         logger WARNING [Text "Request is not JSON"] ;;;
         ret (bad_request "Content-Type must be application/json")
       else
         data <- get_json req ;;
         if negb (truthy data) then
           logger WARNING [Text "No JSON data received"] ;;;
           ret (bad_request "No JSON data provided")
         else
           email <- py_get data "email" (PyStr "unknown") ;;
           logger INFO [Text "Processing account creation for email: "; Fmt email] ;;;
           missing <- missing_fields data ;;
           match missing with
           | _ :: _ =>
               logger WARNING [Text "Missing required fields: ";
                               Fmt (PyList (PyStr <$> missing))] ;;;
               ret (bad_request
                      ("Missing required fields: " +:+ String.concat ", " missing))
           | [] =>
               payload <- account_data data ;;
               logger INFO [Text "Calling Match Trade API..."] ;;;
               result <- create_account payload ;;
               code <- status_code result ;;
               ret (with_status (jsonify result) code)
           end)
      (fun e =>
         logger ERROR [Text "Error in create_simple_account endpoint: ";
                       Text (exn_text e)] ;;;
         ret (with_status
                (jsonify (PyDict {[ "success" := PyBool false;
                                    "error" := PyStr "Internal server error occurred" ]}))
                (PyInt 500))).

End Relay.

(** ** Running the monad *)

(** The result of a computation started in the empty world. *)
Definition eval {A} (m : M A) : res A := fst (m world0).

(** A computation is pure when it leaves the world alone and its result does
    not depend on it. *)
Definition pure {A} (m : M A) : Prop := forall w, m w = (eval m, w).

(** ** Vocabulary of the contract *)

(** [bool(data.get(field))] for a [dict] body. *)
Definition lookup_truthy (d : gmap string pyval) (field : string) : bool :=
  truthy (default PyNone (d !! field)).

(** The required fields the handler reports for the body [d]. *)
Definition missing_of (d : gmap string pyval) : list string :=
  List.filter (fun field => negb (lookup_truthy d field)) required_fields.

Definition is_str (v : pyval) : bool :=
  match v with PyStr _ => true | _ => false end.

Definition is_dict (v : pyval) : bool :=
  match v with PyDict _ => true | _ => false end.

(** The fields the handler strips. *)
Definition stripped_fields : list string :=
  ["email"; "firstname"; "lastname"; "phoneNumber"].

(** A body with the four stripped fields bound to non-empty strings and a
    password that is not falsy. *)
Definition valid_body (d : gmap string pyval) : bool :=
  forallb (fun field => is_str (default PyNone (d !! field)) && lookup_truthy d field)
          stripped_fields
  && lookup_truthy d "password".

(** Where a request field sits in the upstream payload. *)
Definition payload_field (payload : pyval) (field : string) : option pyval :=
  match payload with
  | PyDict p =>
      if String.eqb field "firstname" || String.eqb field "lastname" then
        match p !! "personalDetails" with
        | Some (PyDict q) => q !! field
        | _ => None
        end
      else if String.eqb field "phoneNumber" then
        match p !! "contactDetails" with
        | Some (PyDict q) => q !! field
        | _ => None
        end
      else p !! field
  | _ => None
  end.

(** The body the relay attaches under [data]: [{}] for empty content, the
    decoded JSON, or the raw text when the content is not JSON. *)
Definition parsed_body (r : http_response) : pyval :=
  match resp_content r with
  | EmptyString => PyDict ∅
  | _ => match resp_json r with
         | Return v => v
         | Raise _ => PyDict {[ "raw_text" := PyStr (resp_text r) ]}
         end
  end.

(** The exception that decoding the body of a response lets through to the
    outer handlers of [create_account]: none when the content is empty, when
    it decodes, or when it fails with a [JSONDecodeError]. *)
Definition body_fault (r : http_response) : option exn :=
  match resp_content r with
  | EmptyString => None
  | _ => match resp_json r with
         | Return _ => None
         | Raise e => if is_JSONDecodeError (exn_cls e) then None else Some e
         end
  end.

(** The exception, if any, that reaches the outer handlers of
    [create_account]. *)
Definition service_fault (o : outcome) : option exn :=
  match o with
  | Responds r => body_fault r
  | Raises e => Some e
  end.

(** The failure classes of the outbound call and their reason strings. *)
Definition stable_reason (c : exn_class) : string :=
  match c with
  | Timeout | ConnectTimeout | ReadTimeout =>
      "Request timed out. Please try again."
  | ConnectionError =>
      "Connection error. Please check your internet connection."
  | RequestException =>
      "Network error occurred. Please try again."
  | RequestsJSONDecodeError =>
      "Network error occurred. Please try again."
  | AttributeError | TypeError | KeyError | BadRequest | JSONDecodeError
  | RecursionError | ValueError | OtherException =>
      "An unexpected error occurred. Please try again."
  end.

(** Two results of decoding a body ([request.get_json()],
    [response.json()]) that differ at most in the text of the exception
    raised. *)
Definition same_body_up_to_text (b1 b2 : res pyval) : Prop :=
  match b1, b2 with
  | Return v1, Return v2 => v1 = v2
  | Raise e1, Raise e2 => exn_cls e1 = exn_cls e2
  | _, _ => False
  end.

(** Two outcomes of the outbound call that differ at most in the text of the
    exception raised, by the call or by decoding the response. *)
Definition same_up_to_text (o1 o2 : outcome) : Prop :=
  match o1, o2 with
  | Responds r1, Responds r2 =>
      resp_status_code r1 = resp_status_code r2 /\
      resp_headers r1 = resp_headers r2 /\
      resp_content r1 = resp_content r2 /\
      resp_text r1 = resp_text r2 /\
      same_body_up_to_text (resp_json r1) (resp_json r2)
  | Raises e1, Raises e2 => exn_cls e1 = exn_cls e2
  | _, _ => False
  end.

(** The response of the catch-all handler (lines 187-190). *)
Definition internal_error : flask_response :=
  FlaskResponse
    (PyDict {[ "success" := PyBool false;
               "error" := PyStr "Internal server error occurred" ]})
    (PyInt 500).

(** The outbound call the relay makes for a payload. *)
Definition call_with (payload : pyval) : post_call :=
  PostCall base_url default_headers payload 30.

(** ** The outcomes of a request *)

(** What a request that is not a preflight can end in: the response and the
    outbound calls it makes, case by case along the handler. *)
Inductive relays (up : post_call -> outcome) (req : request)
  : flask_response -> list post_call -> Prop :=
  | relays_not_json :
      req_is_json req = false ->
      relays up req (bad_request "Content-Type must be application/json") []
  | relays_not_decodable e :
      req_is_json req = true -> req_get_json req = Raise e ->
      relays up req internal_error []
  | relays_no_data v :
      req_is_json req = true -> req_get_json req = Return v ->
      truthy v = false ->
      relays up req (bad_request "No JSON data provided") []
  | relays_not_dict v :
      req_is_json req = true -> req_get_json req = Return v ->
      truthy v = true -> is_dict v = false ->
      relays up req internal_error []
  | relays_missing d :
      req_is_json req = true -> req_get_json req = Return (PyDict d) ->
      d ≠ ∅ -> missing_of d ≠ [] ->
      relays up req
        (bad_request ("Missing required fields: "
                      +:+ String.concat ", " (missing_of d))) []
  | relays_payload_fault d e :
      req_is_json req = true -> req_get_json req = Return (PyDict d) ->
      missing_of d = [] -> eval (account_data (PyDict d)) = Raise e ->
      relays up req internal_error []
  | relays_response d payload r :
      req_is_json req = true -> req_get_json req = Return (PyDict d) ->
      missing_of d = [] -> eval (account_data (PyDict d)) = Return payload ->
      up (call_with payload) = Responds r -> body_fault r = None ->
      relays up req
        (FlaskResponse
           (PyDict
              {[ "success" := PyBool (py_in (resp_status_code r) [200; 201]);
                 "status_code" := PyInt (resp_status_code r);
                 "data" := parsed_body r;
                 "message" :=
                   PyStr (if py_in (resp_status_code r) [200; 201]
                          then "Account created successfully"
                          else "Account creation failed") ]})
           (PyInt (if py_in (resp_status_code r) [200; 201]
                   then 200 else resp_status_code r)))
        [call_with payload]
  | relays_failure d payload e :
      req_is_json req = true -> req_get_json req = Return (PyDict d) ->
      missing_of d = [] -> eval (account_data (PyDict d)) = Return payload ->
      service_fault (up (call_with payload)) = Some e ->
      relays up req
        (FlaskResponse
           (PyDict {[ "success" := PyBool false;
                      "error" := PyStr (stable_reason (exn_cls e));
                      "status_code" := PyNone ]})
           (PyInt 500))
        [call_with payload].

(** ** What is logged *)

(** The ERROR record of the handler of [create_account] that catches [e]
    (lines 60, 67, 74, 81). *)
Definition fault_log (e : exn) : log_record :=
  (ERROR,
   if is_Timeout (exn_cls e) then [Text "Request timeout"]
   else if is_ConnectionError (exn_cls e)
        then [Text "Connection error: "; Text (exn_text e)]
   else if is_RequestException (exn_cls e)
        then [Text "Request error: "; Text (exn_text e)]
   else [Text "Unexpected error: "; Text (exn_text e)]).

(** The records [create_account] writes, given what the outbound call did
    (lines 33, 43-44, 60, 67, 74, 81). *)
Definition service_log (o : outcome) : list log_record :=
  (INFO, [Text "Attempting to create account..."]) ::
  match o with
  | Responds r =>
      [ (INFO, [Text "Match Trade API Response Status: ";
                Fmt (PyInt (resp_status_code r))]);
        (INFO, [Text "Response headers: ";
                Fmt (PyDict (PyStr <$> resp_headers r))]) ]
  | Raises _ => []
  end
  ++ match service_fault o with
     | Some e => [fault_log e]
     | None => []
     end.

(** The last record of a forwarded request (lines 176, 181). *)
Definition verdict_log (o : outcome) : log_record :=
  match service_fault o, o with
  | Some e, _ =>
      (ERROR, [Text "Account creation failed: ";
               Fmt (PyStr (stable_reason (exn_cls e)))])
  | None, Responds r =>
      if py_in (resp_status_code r) [200; 201]
      then (INFO, [Text "Account created successfully"])
      else (ERROR, [Text "Account creation failed: "; Fmt (PyStr "Unknown error")])
  | None, Raises e =>
      (ERROR, [Text "Account creation failed: ";
               Fmt (PyStr (stable_reason (exn_cls e)))])
  end.

(** All the records of a forwarded request: they mention the method, the
    [email] of the body and what the outbound call did. *)
Definition forward_log (method : string) (email : pyval) (o : outcome)
  : list log_record :=
  [ (INFO, [Text "Received "; Text method; Text " request to /api/accounts/simple"]);
    (INFO, [Text "Processing account creation for email: "; Fmt email]);
    (INFO, [Text "Calling Match Trade API..."]) ]
  ++ service_log o ++ [verdict_log o].

(** ** Edges of a string *)

Definition starts_with_space (s : string) : bool :=
  match s with
  | String c _ => isspace c
  | EmptyString => false
  end.

Fixpoint ends_with_space (s : string) : bool :=
  match s with
  | String c EmptyString => isspace c
  | String _ s' => ends_with_space s'
  | EmptyString => false
  end.

(** ** Sample requests and upstream behaviours *)

Definition dquote : string := String (ascii_of_nat 34) EmptyString.

(** A complete body; every string carries surrounding blanks. *)
Definition sample_body : gmap string pyval :=
  {[ "email" := PyStr " ann@example.org ";
     "password" := PyStr " s3cret ";
     "firstname" := PyStr " Ann";
     "lastname" := PyStr "Lee ";
     "phoneNumber" := PyStr " +1 555 0100 " ]}.

(** The same body with an [offer] and a whitespace-only [lastname]. *)
Definition sample_body_offer : gmap string pyval :=
  <[ "offer" := PyStr " gold " ]> (<[ "lastname" := PyStr "  " ]> sample_body).

Definition post_request (data : pyval) : request :=
  Request "POST" true (Return data).

(** Upstream answers 201 with body [{"id":"abc"}]. *)
Definition upstream_created (c : post_call) : outcome :=
  let text := "{" +:+ dquote +:+ "id" +:+ dquote +:+ ":"
              +:+ dquote +:+ "abc" +:+ dquote +:+ "}" in
  Responds (HttpResponse 201 ∅ text text (Return (PyDict {[ "id" := PyStr "abc" ]}))).

(** Upstream answers 409 with body [{"error":"duplicate"}]. *)
Definition upstream_duplicate (c : post_call) : outcome :=
  let text := "{" +:+ dquote +:+ "error" +:+ dquote +:+ ":"
              +:+ dquote +:+ "duplicate" +:+ dquote +:+ "}" in
  Responds (HttpResponse 409 ∅ text text
              (Return (PyDict {[ "error" := PyStr "duplicate" ]}))).


(** The call runs into the 30 second bound. *)
Definition upstream_timeout (c : post_call) : outcome :=
  Raises (Exn ReadTimeout "Read timed out. (read timeout=30)").

(** ** Running the monad: equations *)

Lemma bind_run {A B} (m : M A) (k : A -> M B) w :
  bind m k w = match m w with
               | (Return a, w') => k a w'
               | (Raise e, w') => (Raise e, w')
               end.
Proof. reflexivity. Qed.

Lemma ret_run {A} (a : A) w : ret a w = (Return a, w).
Proof. reflexivity. Qed.

Lemma raise_run {A} (e : exn) w : raise e w = (@Raise A e, w).
Proof. reflexivity. Qed.

Lemma logger_run l msg w :
  logger l msg w = (Return tt, World (logged w ++ [(l, msg)]) (posted w)).
Proof. reflexivity. Qed.

Lemma try_catch_run {A} (m : M A) (c : exn_class -> bool) (h : exn -> M A) w :
  try_catch m c h w = match m w with
                      | (Return a, w') => (Return a, w')
                      | (Raise e, w') =>
                          if c (exn_cls e) then h e w' else (Raise e, w')
                      end.
Proof. reflexivity. Qed.

Lemma try_except_run {A} (m : M A) (h : exn -> M A) w :
  try_except m h w = match m w with
                     | (Return a, w') => (Return a, w')
                     | (Raise e, w') => h e w'
                     end.
Proof. reflexivity. Qed.

Lemma pure_ret {A} (a : A) : pure (ret a).
Proof. intros w. reflexivity. Qed.

Lemma pure_raise {A} (e : exn) : pure (@raise A e).
Proof. intros w. reflexivity. Qed.

Lemma pure_bind {A B} (m : M A) (k : A -> M B) :
  pure m -> (forall a, pure (k a)) -> pure (bind m k).
Proof.
  intros Hm Hk w. unfold eval. rewrite !bind_run, (Hm w), (Hm world0).
  destruct (eval m) as [a|e]; [|reflexivity].
  rewrite (Hk a w), (Hk a world0). reflexivity.
Qed.

Lemma pure_py_get v k dflt : pure (py_get v k dflt).
Proof. destruct v; first [apply pure_ret | apply pure_raise]. Qed.

Lemma pure_py_getitem v k : pure (py_getitem v k).
Proof.
  destruct v; cbn [py_getitem]; try apply pure_raise.
  destruct (d !! k); [apply pure_ret | apply pure_raise].
Qed.

Lemma pure_py_strip v : pure (py_strip v).
Proof. destruct v; first [apply pure_ret | apply pure_raise]. Qed.

Create HintDb pure.
#[local] Hint Resolve pure_ret pure_raise pure_py_get pure_py_getitem
  pure_py_strip : pure.

Ltac pure_step :=
  first [ apply pure_bind; [|intros ?] | solve [auto with pure] ].

Lemma pure_account_data data : pure (account_data data).
Proof. unfold account_data. repeat pure_step. Qed.

Lemma comprehension_pure {A} (p : A -> M bool) (f : A -> bool) l w :
  (forall x w', p x w' = (Return (f x), w')) ->
  comprehension p l w = (Return (List.filter f l), w).
Proof.
  intros Hp. induction l as [|x l IH]; [reflexivity|].
  cbn [comprehension List.filter].
  rewrite bind_run, Hp, bind_run, IH. destruct (f x); reflexivity.
Qed.

Ltac run :=
  repeat first
    [ rewrite bind_run | rewrite logger_run | rewrite ret_run
    | rewrite raise_run | rewrite try_except_run | rewrite try_catch_run
    | progress cbv beta iota ].

(** ** The steps of the handler *)

Lemma missing_fields_dict d w :
  missing_fields (PyDict d) w = (Return (missing_of d), w).
Proof. apply comprehension_pure. reflexivity. Qed.

Lemma truthy_dict (d : gmap string pyval) : d ≠ ∅ -> truthy (PyDict d) = true.
Proof.
  intros Hne. cbn [truthy]. destruct (size d) eqn:Hs; [|reflexivity].
  apply map_size_empty_iff in Hs. contradiction.
Qed.

Lemma missing_of_nil d field :
  missing_of d = [] -> In field required_fields -> lookup_truthy d field = true.
Proof.
  unfold missing_of. intros Hnil Hin.
  destruct (lookup_truthy d field) eqn:E; [reflexivity|].
  assert (Hf : In field (List.filter (fun f => negb (lookup_truthy d f)) required_fields)).
  { apply filter_In. split; [exact Hin | rewrite E; reflexivity]. }
  rewrite Hnil in Hf. destruct Hf.
Qed.

Lemma lookup_truthy_Some d field :
  lookup_truthy d field = true -> exists v, d !! field = Some v /\ truthy v = true.
Proof.
  unfold lookup_truthy. destruct (d !! field) as [v|]; cbn [default truthy].
  - intros Hv. exists v. split; [reflexivity | exact Hv].
  - discriminate.
Qed.

Lemma missing_of_nil_nonempty d : missing_of d = [] -> d ≠ ∅.
Proof.
  intros Hnil Hd.
  destruct (lookup_truthy_Some d "email") as (v & Hv & _).
  { apply missing_of_nil; [exact Hnil | cbn; auto]. }
  rewrite Hd, lookup_empty in Hv. discriminate.
Qed.

Lemma post_is_not_options m : m = "POST" -> String.eqb m "OPTIONS" = false.
Proof. intros ->. reflexivity. Qed.

Lemma run_options up req w :
  String.eqb (req_method req) "OPTIONS" = true ->
  exists lg, create_simple_account up req w
             = (Return (jsonify (PyDict {[ "status" := PyStr "ok" ]})),
                World lg (posted w)).
Proof.
  intros Hm. unfold create_simple_account. rewrite Hm. run.
  eexists. reflexivity.
Qed.

Lemma run_not_json up req w :
  String.eqb (req_method req) "OPTIONS" = false -> req_is_json req = false ->
  exists lg, create_simple_account up req w
             = (Return (bad_request "Content-Type must be application/json"),
                World lg (posted w)).
Proof.
  intros Hm Hj. unfold create_simple_account. rewrite Hm, Hj. cbn [negb]. run.
  eexists. reflexivity.
Qed.

Section Steps.

Variable up : post_call -> outcome.
Variable req : request.
Hypothesis Hpost : String.eqb (req_method req) "OPTIONS" = false.
Hypothesis Hjson : req_is_json req = true.

Lemma run_not_decodable e w :
  req_get_json req = Raise e ->
  exists lg, create_simple_account up req w
             = (Return internal_error, World lg (posted w)).
Proof using Hpost Hjson.
  intros Hb. unfold create_simple_account.
  rewrite Hpost, Hjson. cbn [negb]. run.
  unfold get_json at 1. rewrite Hb. run.
  eexists. reflexivity.
Qed.

Lemma run_falsy v w :
  req_get_json req = Return v -> truthy v = false ->
  exists lg, create_simple_account up req w
             = (Return (bad_request "No JSON data provided"), World lg (posted w)).
Proof using Hpost Hjson.
  intros Hb Hv. unfold create_simple_account.
  rewrite Hpost, Hjson. cbn [negb]. run.
  unfold get_json at 1. rewrite Hb. run. rewrite Hv. cbn [negb]. run.
  eexists. reflexivity.
Qed.

Lemma run_not_dict v w :
  req_get_json req = Return v -> truthy v = true -> is_dict v = false ->
  exists lg, create_simple_account up req w
             = (Return internal_error, World lg (posted w)).
Proof using Hpost Hjson.
  intros Hb Hv Hd. unfold create_simple_account.
  rewrite Hpost, Hjson. cbn [negb]. run.
  unfold get_json at 1. rewrite Hb. run. rewrite Hv. cbn [negb]. run.
  destruct v; try discriminate Hd; cbn [py_get]; run; eexists; reflexivity.
Qed.

Lemma run_missing d w :
  req_get_json req = Return (PyDict d) -> d ≠ ∅ -> missing_of d ≠ [] ->
  exists lg, create_simple_account up req w
             = (Return (bad_request ("Missing required fields: "
                                     +:+ String.concat ", " (missing_of d))),
                World lg (posted w)).
Proof using Hpost Hjson.
  intros Hb Hne Hmiss. unfold create_simple_account.
  rewrite Hpost, Hjson. cbn [negb]. run.
  unfold get_json at 1. rewrite Hb. run. rewrite (truthy_dict _ Hne). cbn [negb]. run.
  cbn [py_get]. run. rewrite missing_fields_dict.
  destruct (missing_of d) as [|f fs]; [contradiction|]. run.
  eexists. reflexivity.
Qed.

(** The service result for a response and for a failure of the call. *)
Lemma create_account_responds payload r w :
  up (call_with payload) = Responds r -> body_fault r = None ->
  exists lg,
    create_account up payload w
    = (Return (PyDict
         {[ "success" := PyBool (py_in (resp_status_code r) [200; 201]);
            "status_code" := PyInt (resp_status_code r);
            "data" := parsed_body r;
            "message" :=
              PyStr (if py_in (resp_status_code r) [200; 201]
                     then "Account created successfully"
                     else "Account creation failed") ]}),
       World lg (posted w ++ [call_with payload])).
Proof.
  intros Hup Hfault. unfold create_account. run.
  unfold post at 1. fold (call_with payload). rewrite Hup. cbn [logged posted]. run.
  cbn [logged posted]. unfold parsed_body. unfold body_fault in Hfault.
  destruct (resp_content r); cbn [String.length Nat.eqb negb]; run;
    [eexists; reflexivity|].
  destruct (resp_json r) as [v|e]; run; [eexists; reflexivity|].
  destruct (is_JSONDecodeError (exn_cls e)); [|discriminate Hfault].
  run. eexists. reflexivity.
Qed.

(** Decoding the body raises something the inner handler does not catch. *)
Lemma create_account_body_fault payload r e w :
  up (call_with payload) = Responds r -> body_fault r = Some e ->
  exists lg,
    create_account up payload w
    = (Return (PyDict
         {[ "success" := PyBool false;
            "error" := PyStr (stable_reason (exn_cls e));
            "status_code" := PyNone ]}),
       World lg (posted w ++ [call_with payload])).
Proof.
  intros Hup Hfault. unfold create_account. run.
  unfold post at 1. fold (call_with payload). rewrite Hup. cbn [logged posted]. run.
  cbn [logged posted]. unfold body_fault in Hfault.
  destruct (resp_content r); [discriminate Hfault|].
  cbn [String.length Nat.eqb negb]. run.
  destruct (resp_json r) as [v|e']; [discriminate Hfault|]. run.
  destruct (is_JSONDecodeError (exn_cls e')) eqn:Hj; [discriminate Hfault|].
  injection Hfault as ->. run.
  destruct e as [c t]; destruct c; try discriminate Hj;
    cbn [exn_cls is_Timeout is_ConnectionError is_RequestException stable_reason];
    run; cbn [logged posted]; eexists; reflexivity.
Qed.

Lemma create_account_raises payload e w :
  up (call_with payload) = Raises e ->
  exists lg,
    create_account up payload w
    = (Return (PyDict
         {[ "success" := PyBool false;
            "error" := PyStr (stable_reason (exn_cls e));
            "status_code" := PyNone ]}),
       World lg (posted w ++ [call_with payload])).
Proof.
  intros Hup. unfold create_account. run.
  unfold post at 1. fold (call_with payload). rewrite Hup. cbn [logged posted]. run.
  destruct e as [c t]; destruct c;
    cbn [exn_cls is_Timeout is_ConnectionError is_RequestException stable_reason];
    run; cbn [logged posted]; eexists; reflexivity.
Qed.

(** Either way the failure reaches the outer handlers of the service. *)
Lemma create_account_fault payload e w :
  service_fault (up (call_with payload)) = Some e ->
  exists lg,
    create_account up payload w
    = (Return (PyDict
         {[ "success" := PyBool false;
            "error" := PyStr (stable_reason (exn_cls e));
            "status_code" := PyNone ]}),
       World lg (posted w ++ [call_with payload])).
Proof.
  destruct (up (call_with payload)) as [r|e'] eqn:Hup; cbn [service_fault].
  - intros Hfault. exact (create_account_body_fault payload r e w Hup Hfault).
  - intros [= ->]. exact (create_account_raises payload e w Hup).
Qed.

(** The status chosen from a service result. *)
Lemma status_code_success (result : gmap string pyval) w :
  result !! "success" = Some (PyBool true) ->
  exists lg, status_code (PyDict result) w = (Return (PyInt 200), World lg (posted w)).
Proof.
  intros Hs. unfold status_code. run. cbn [py_getitem]. rewrite Hs. run.
  cbn [truthy]. run. eexists. reflexivity.
Qed.

Lemma status_code_failure (result : gmap string pyval) w :
  result !! "success" = Some (PyBool false) ->
  exists lg,
    status_code (PyDict result) w
    = (Return (match default (PyInt 500) (result !! "status_code") with
               | PyNone => PyInt 500
               | _ => default (PyInt 500) (result !! "status_code")
               end),
       World lg (posted w)).
Proof.
  intros Hs. unfold status_code. run. cbn [py_getitem]. rewrite Hs. run.
  cbn [truthy py_get]. run. eexists. reflexivity.
Qed.

(** Payload construction faults: the catch-all handler answers. *)
Lemma run_payload_fault d e w :
  req_get_json req = Return (PyDict d) -> missing_of d = [] ->
  eval (account_data (PyDict d)) = Raise e ->
  exists lg, create_simple_account up req w
             = (Return internal_error, World lg (posted w)).
Proof using Hpost Hjson.
  intros Hb Hmiss He. unfold create_simple_account.
  rewrite Hpost, Hjson. cbn [negb]. run.
  unfold get_json at 1. rewrite Hb. run.
  rewrite (truthy_dict _ (missing_of_nil_nonempty _ Hmiss)). cbn [negb]. run.
  cbn [py_get]. run. rewrite missing_fields_dict, Hmiss. run.
  rewrite pure_account_data, He. run. eexists. reflexivity.
Qed.

(** The payload is built and forwarded. *)
Lemma run_forward_responds d payload r w :
  req_get_json req = Return (PyDict d) -> missing_of d = [] ->
  eval (account_data (PyDict d)) = Return payload ->
  up (call_with payload) = Responds r -> body_fault r = None ->
  exists lg,
    create_simple_account up req w
    = (Return (FlaskResponse
         (PyDict
            {[ "success" := PyBool (py_in (resp_status_code r) [200; 201]);
               "status_code" := PyInt (resp_status_code r);
               "data" := parsed_body r;
               "message" :=
                 PyStr (if py_in (resp_status_code r) [200; 201]
                        then "Account created successfully"
                        else "Account creation failed") ]})
         (PyInt (if py_in (resp_status_code r) [200; 201]
                 then 200 else resp_status_code r))),
       World lg (posted w ++ [call_with payload])).
Proof using Hpost Hjson.
  intros Hb Hmiss He Hup Hfault. unfold create_simple_account.
  rewrite Hpost, Hjson. cbn [negb]. run.
  unfold get_json at 1. rewrite Hb. run.
  rewrite (truthy_dict _ (missing_of_nil_nonempty _ Hmiss)). cbn [negb]. run.
  cbn [py_get]. run. rewrite missing_fields_dict, Hmiss. run.
  rewrite pure_account_data, He. run.
  match goal with
  | |- context [create_account up payload ?w1] =>
      destruct (create_account_responds payload r w1 Hup Hfault) as [lg1 ->]
  end.
  run. cbn [posted].
  destruct (py_in (resp_status_code r) [200; 201]) eqn:Hin.
  - match goal with
    | |- context [status_code (PyDict ?res) ?w2] =>
        destruct (status_code_success res w2 eq_refl) as [lg2 ->]
    end.
    run. cbn [posted]. eexists. reflexivity.
  - match goal with
    | |- context [status_code (PyDict ?res) ?w2] =>
        destruct (status_code_failure res w2 eq_refl) as [lg2 ->]
    end.
    run. cbn [posted]. eexists. reflexivity.
Qed.

Lemma run_forward_fault d payload e w :
  req_get_json req = Return (PyDict d) -> missing_of d = [] ->
  eval (account_data (PyDict d)) = Return payload ->
  service_fault (up (call_with payload)) = Some e ->
  exists lg,
    create_simple_account up req w
    = (Return (FlaskResponse
         (PyDict
            {[ "success" := PyBool false;
               "error" := PyStr (stable_reason (exn_cls e));
               "status_code" := PyNone ]})
         (PyInt 500)),
       World lg (posted w ++ [call_with payload])).
Proof using Hpost Hjson.
  intros Hb Hmiss He Hup. unfold create_simple_account.
  rewrite Hpost, Hjson. cbn [negb]. run.
  unfold get_json at 1. rewrite Hb. run.
  rewrite (truthy_dict _ (missing_of_nil_nonempty _ Hmiss)). cbn [negb]. run.
  cbn [py_get]. run. rewrite missing_fields_dict, Hmiss. run.
  rewrite pure_account_data, He. run.
  match goal with
  | |- context [create_account up payload ?w1] =>
      destruct (create_account_fault payload e w1 Hup) as [lg1 ->]
  end.
  run. cbn [posted].
  match goal with
  | |- context [status_code (PyDict ?res) ?w2] =>
      destruct (status_code_failure res w2 eq_refl) as [lg2 ->]
  end.
  run. cbn [posted]. eexists. reflexivity.
Qed.

Lemma run_forward_raises d payload e w :
  req_get_json req = Return (PyDict d) -> missing_of d = [] ->
  eval (account_data (PyDict d)) = Return payload ->
  up (call_with payload) = Raises e ->
  exists lg,
    create_simple_account up req w
    = (Return (FlaskResponse
         (PyDict
            {[ "success" := PyBool false;
               "error" := PyStr (stable_reason (exn_cls e));
               "status_code" := PyNone ]})
         (PyInt 500)),
       World lg (posted w ++ [call_with payload])).
Proof using Hpost Hjson.
  intros Hb Hmiss He Hup. apply run_forward_fault with (d := d); try assumption.
  rewrite Hup. reflexivity.
Qed.


End Steps.

(** ** Payload construction *)

Lemma account_data_valid d e p f l ph :
  d !! "email" = Some (PyStr e) -> d !! "password" = Some p ->
  d !! "firstname" = Some (PyStr f) -> d !! "lastname" = Some (PyStr l) ->
  d !! "phoneNumber" = Some (PyStr ph) ->
  eval (account_data (PyDict d))
  = Return (PyDict
      {[ "email" := PyStr (strip e);
         "password" := p;
         "offer" := default (PyStr default_offer) (d !! "offer");
         "createAsDepositedAccount" :=
           default (PyBool false) (d !! "createAsDepositedAccount");
         "personalDetails" :=
           PyDict {[ "firstname" := PyStr (strip f);
                     "lastname" := PyStr (strip l) ]};
         "contactDetails" := PyDict {[ "phoneNumber" := PyStr (strip ph) ]} ]}).
Proof.
  intros He Hp Hf Hl Hph. unfold eval, account_data. run.
  cbn [py_getitem py_get]. rewrite He, Hp, Hf, Hl, Hph. run.
  cbn [py_strip]. run. reflexivity.
Qed.

Lemma account_data_Return_inv d payload field :
  eval (account_data (PyDict d)) = Return payload ->
  In field stripped_fields ->
  is_str (default PyNone (d !! field)) = true.
Proof.
  unfold eval, account_data. run. cbn [py_getitem py_get].
  destruct (d !! "email") as [[]|] eqn:He; run; cbn [py_strip]; run;
    try (cbn [fst]; discriminate).
  destruct (d !! "password") as [p|]; run; try (cbn [fst]; discriminate).
  destruct (d !! "firstname") as [[]|] eqn:Hf; run; cbn [py_strip]; run;
    try (cbn [fst]; discriminate).
  destruct (d !! "lastname") as [[]|] eqn:Hl; run; cbn [py_strip]; run;
    try (cbn [fst]; discriminate).
  destruct (d !! "phoneNumber") as [[]|] eqn:Hph; run; cbn [py_strip]; run;
    try (cbn [fst]; discriminate).
  intros _ Hin. cbn in Hin.
  destruct Hin as [<-|[<-|[<-|[<-|[]]]]];
    rewrite ?He, ?Hf, ?Hl, ?Hph; reflexivity.
Qed.

(** ** Stripping *)

Example strip_keeps_inner_blanks : strip "  Ann  Lee  " = "Ann  Lee".
Proof. reflexivity. Qed.

Example strip_blank_only : strip "   " = EmptyString.
Proof. reflexivity. Qed.

Example truthy_examples :
  truthy (PyStr " ") = true /\ truthy (PyStr EmptyString) = false /\
  truthy (PyInt 0) = false /\ truthy (PyBool false) = false /\
  truthy PyNone = false /\ truthy (PyList []) = false /\
  truthy (PyDict ∅) = false /\ truthy (PyList [PyInt 0]) = true.
Proof. repeat split; reflexivity. Qed.

Lemma lstrip_all_space s : all_space s = true -> lstrip s = EmptyString.
Proof.
  induction s as [|c s IH]; [reflexivity|].
  cbn [all_space lstrip]. intros [Hc Hs]%andb_prop.
  rewrite Hc. exact (IH Hs).
Qed.

Lemma strip_all_space s : all_space s = true -> strip s = EmptyString.
Proof. intros Hs. unfold strip. rewrite (lstrip_all_space s Hs). reflexivity. Qed.

(** ** The reported fields *)

Lemma missing_fields_eval d : eval (missing_fields (PyDict d)) = Return (missing_of d).
Proof. unfold eval. rewrite missing_fields_dict. reflexivity. Qed.

Lemma In_missing_of d field :
  In field (missing_of d)
  <-> In field required_fields /\ lookup_truthy d field = false.
Proof.
  unfold missing_of. rewrite filter_In.
  destruct (lookup_truthy d field); cbn [negb]; intuition congruence.
Qed.

Lemma sublist_filter_bool {A} (f : A -> bool) (l : list A) :
  sublist (List.filter f l) l.
Proof.
  induction l as [|x l IH]; cbn [List.filter]; [constructor|].
  destruct (f x); [apply sublist_skip | apply sublist_cons]; exact IH.
Qed.

Lemma missing_of_sublist d : sublist (missing_of d) required_fields.
Proof. apply sublist_filter_bool. Qed.

Lemma lookup_truthy_absent d field :
  d !! field = None \/ d !! field = Some (PyStr EmptyString) ->
  lookup_truthy d field = false.
Proof. unfold lookup_truthy. intros [-> | ->]; reflexivity. Qed.

Lemma lookup_truthy_falsy d field v :
  d !! field = Some v -> truthy v = false -> lookup_truthy d field = false.
Proof. unfold lookup_truthy. intros -> Hv. exact Hv. Qed.

Lemma lookup_truthy_delete_ne d field other :
  field ≠ other -> lookup_truthy (delete field d) other = lookup_truthy d other.
Proof. intros Hne. unfold lookup_truthy. rewrite lookup_delete_ne; [reflexivity | exact Hne]. Qed.

Lemma missing_of_delete_falsy d field :
  lookup_truthy d field = false -> missing_of (delete field d) = missing_of d.
Proof.
  intros Hf. unfold missing_of. apply filter_ext. intros other.
  destruct (decide (field = other)) as [<-|Hne].
  - rewrite Hf. unfold lookup_truthy. rewrite lookup_delete_eq. reflexivity.
  - rewrite lookup_truthy_delete_ne; [reflexivity | exact Hne].
Qed.

(** ** Valid bodies *)

Lemma valid_body_str d field :
  valid_body d = true -> In field stripped_fields ->
  exists s, d !! field = Some (PyStr s) /\ s ≠ EmptyString.
Proof.
  unfold valid_body. intros [Hall _]%andb_prop Hin.
  rewrite forallb_forall in Hall. specialize (Hall field Hin).
  apply andb_prop in Hall as [Hs Ht]. unfold lookup_truthy in Ht.
  destruct (d !! field) as [[]|]; try discriminate.
  exists s. split; [reflexivity|]. intros ->. discriminate.
Qed.

Lemma valid_body_missing d : valid_body d = true -> missing_of d = [].
Proof.
  intros Hv. unfold missing_of.
  assert (Hall : forall field, In field required_fields -> lookup_truthy d field = true).
  { intros field Hin. pose proof Hv as Hv'. unfold valid_body in Hv'.
    apply andb_prop in Hv' as [Hall Hp]. rewrite forallb_forall in Hall.
    cbn in Hin. destruct Hin as [<-|[<-|[<-|[<-|[<-|[]]]]]]; try exact Hp;
      (eapply proj2, andb_prop, Hall; cbn; tauto). }
  induction required_fields as [|x l IH]; [reflexivity|].
  cbn [List.filter]. rewrite (Hall x (or_introl eq_refl)). cbn [negb].
  apply IH. intros field Hin. apply Hall. right. exact Hin.
Qed.

Lemma valid_body_payload d :
  valid_body d = true ->
  exists e p f l ph,
    d !! "email" = Some (PyStr e) /\ d !! "password" = Some p /\
    d !! "firstname" = Some (PyStr f) /\ d !! "lastname" = Some (PyStr l) /\
    d !! "phoneNumber" = Some (PyStr ph).
Proof.
  intros Hv.
  destruct (valid_body_str d "email" Hv) as (e & He & _); [cbn; tauto|].
  destruct (valid_body_str d "firstname" Hv) as (f & Hf & _); [cbn; tauto|].
  destruct (valid_body_str d "lastname" Hv) as (l & Hl & _); [cbn; tauto|].
  destruct (valid_body_str d "phoneNumber" Hv) as (ph & Hph & _); [cbn; tauto|].
  destruct (lookup_truthy_Some d "password") as (p & Hp & _).
  { apply missing_of_nil; [apply valid_body_missing, Hv | cbn; tauto]. }
  exists e, p, f, l, ph. auto.
Qed.

(** * The contract *)

(** ** Required-field validation *)

Lemma lookup_truthy_false_iff d field :
  lookup_truthy d field = false
  <-> d !! field = None \/ exists v, d !! field = Some v /\ truthy v = false.
Proof.
  unfold lookup_truthy. destruct (d !! field) as [v|]; cbn.
  - split.
    + intros Hv. right. exists v. split; [reflexivity | exact Hv].
    + intros [Hn | (v' & [= <-] & Hv)]; [discriminate | exact Hv].
  - split; [intros _; left; reflexivity | reflexivity].
Qed.

(** C1 (as amended): a POST whose JSON-object body lacks one or more of the
    required fields (absent, or bound to the empty string or to another
    falsy value) is answered with status 400 and no outbound call.  For the
    empty object the error is "No JSON data provided"; for every other object
    it is "Missing required fields: " followed by the reported fields,
    comma-joined, in the order of [required_fields], and the reported fields
    are exactly the required fields that are absent or falsy. *)
Theorem missing_fields_all_listed up req d w :
  req_method req = "POST" ->
  req_is_json req = true ->
  req_get_json req = Return (PyDict d) ->
  (exists field, In field required_fields /\
                 (d !! field = None \/
                  exists v, d !! field = Some v /\ truthy v = false)) ->
  let out := create_simple_account up req w in
  posted (snd out) = posted w /\
  (d = ∅ ->
   fst out = Return (FlaskResponse
                       (PyDict {[ "success" := PyBool false;
                                  "error" := PyStr "No JSON data provided" ]})
                       (PyInt 400))) /\
  (d ≠ ∅ ->
   fst out = Return (FlaskResponse
                       (PyDict {[ "success" := PyBool false;
                                  "error" := PyStr ("Missing required fields: "
                                                    +:+ String.concat ", " (missing_of d)) ]})
                       (PyInt 400))) /\
  sublist (missing_of d) required_fields /\
  (forall field,
     In field (missing_of d) <->
     In field required_fields /\
     (d !! field = None \/ exists v, d !! field = Some v /\ truthy v = false)).
Proof.
  intros Hm Hj Hb (field & Hin & Habs) out.
  apply post_is_not_options in Hm.
  assert (Hlisted : forall f,
            In f (missing_of d) <->
            In f required_fields /\
            (d !! f = None \/ exists v, d !! f = Some v /\ truthy v = false)).
  { intros f. rewrite In_missing_of, lookup_truthy_false_iff. reflexivity. }
  assert (Hmiss : missing_of d ≠ []).
  { intros Hnil. pose proof (proj2 (Hlisted field) (conj Hin Habs)) as Hf.
    rewrite Hnil in Hf. destruct Hf. }
  destruct (decide (d = ∅)) as [Hd|Hd].
  - destruct (run_falsy up req Hm Hj (PyDict d) w Hb) as [lg Hrun].
    { rewrite Hd. reflexivity. }
    subst out. rewrite Hrun. cbn [fst snd posted].
    split; [reflexivity|]. split; [intros _; reflexivity|].
    split; [intros Hne; contradiction|].
    split; [apply missing_of_sublist | exact Hlisted].
  - destruct (run_missing up req Hm Hj d w Hb Hd Hmiss) as [lg Hrun].
    subst out. rewrite Hrun. cbn [fst snd posted].
    split; [reflexivity|]. split; [intros He; contradiction|].
    split; [intros _; reflexivity|].
    split; [apply missing_of_sublist | exact Hlisted].
Qed.

(** The theorem at a body that is complete but for a [password] bound to
    [0]: that field, and only it, is named. *)
Lemma missing_fields_all_listed_witness :
  fst (create_simple_account upstream_timeout
         (post_request (PyDict (<[ "password" := PyInt 0 ]> sample_body)))
         world0)
  = Return (FlaskResponse
              (PyDict {[ "success" := PyBool false;
                         "error" := PyStr "Missing required fields: password" ]})
              (PyInt 400)).
Proof.
  refine (proj1 (proj2 (proj2
    (missing_fields_all_listed upstream_timeout
       (post_request (PyDict (<[ "password" := PyInt 0 ]> sample_body)))
       _ world0 eq_refl eq_refl eq_refl _))) _).
  - exists "password". split; [cbn; tauto|].
    right. exists (PyInt 0). split; reflexivity.
  - intros H. apply (f_equal (fun m : gmap string pyval => m !! "email")) in H.
    discriminate H.
Defined.

(** C1, counterexample: the empty object lacks all five required fields, and
    the answer names none of them. *)
Lemma empty_object_names_no_field :
  let d : gmap string pyval := ∅ in
  let out := create_simple_account upstream_timeout (post_request (PyDict d)) world0 in
  (forall field, In field required_fields -> d !! field = None) /\
  fst out = Return (FlaskResponse
                      (PyDict {[ "success" := PyBool false;
                                 "error" := PyStr "No JSON data provided" ]})
                      (PyInt 400)) /\
  fst out ≠ Return (FlaskResponse
                      (PyDict {[ "success" := PyBool false;
                                 "error" := PyStr "Missing required fields: email, password, firstname, lastname, phoneNumber" ]})
                      (PyInt 400)).
Proof.
  cbv zeta. split; [intros field _; apply lookup_empty|].
  split; [reflexivity|].
  intros H.
  apply (f_equal (fun r => match r with
                           | Return (FlaskResponse (PyDict m) _) => m !! "error"
                           | _ => None
                           end)) in H.
  vm_compute in H. discriminate H.
Qed.

(** ** The upstream payload *)

(** Whatever the upstream does, a validated body whose payload is built leads
    to exactly one outbound call, carrying that payload. *)
Lemma service_fault_None o :
  service_fault o = None -> exists r, o = Responds r /\ body_fault r = None.
Proof.
  destruct o as [r|e]; [|discriminate]. intros Hf. exists r. split; [reflexivity | exact Hf].
Qed.

Lemma run_forward_posted up req d payload w :
  String.eqb (req_method req) "OPTIONS" = false -> req_is_json req = true ->
  req_get_json req = Return (PyDict d) -> missing_of d = [] ->
  eval (account_data (PyDict d)) = Return payload ->
  posted (snd (create_simple_account up req w))
  = (posted w ++ [call_with payload])%list.
Proof.
  intros Hm Hj Hb Hmiss He.
  destruct (service_fault (up (call_with payload))) as [e|] eqn:Hf.
  - destruct (run_forward_fault up req Hm Hj d payload e w Hb Hmiss He Hf)
      as [lg ->]. reflexivity.
  - destruct (service_fault_None _ Hf) as (r & Hup & Hbody).
    destruct (run_forward_responds up req Hm Hj d payload r w Hb Hmiss He Hup Hbody)
      as [lg ->]. reflexivity.
Qed.

Lemma nonempty_truthy s : s ≠ EmptyString -> truthy (PyStr s) = true.
Proof. destruct s; [contradiction | reflexivity]. Qed.

Lemma valid_body_intro d e p f l ph :
  d !! "email" = Some (PyStr e) -> e ≠ EmptyString ->
  d !! "password" = Some p -> truthy p = true ->
  d !! "firstname" = Some (PyStr f) -> f ≠ EmptyString ->
  d !! "lastname" = Some (PyStr l) -> l ≠ EmptyString ->
  d !! "phoneNumber" = Some (PyStr ph) -> ph ≠ EmptyString ->
  valid_body d = true.
Proof.
  intros He He' Hp Hp' Hf Hf' Hl Hl' Hph Hph'.
  unfold valid_body, stripped_fields, lookup_truthy. cbn [forallb].
  rewrite He, Hp, Hf, Hl, Hph. unfold default. cbn [from_option id is_str andb].
  rewrite !nonempty_truthy by assumption. rewrite Hp'. reflexivity.
Qed.

(** C2: when the five required fields are present and non-empty (the four
    stripped ones being strings), one call goes upstream whose payload holds
    the stripped [firstname] and [lastname] under [personalDetails], the
    stripped [phoneNumber] under [contactDetails] and the stripped [email] at
    top level; [offer] is the default offer identifier when the request has
    none, and [createAsDepositedAccount] is [False] when the request has
    none. *)
Theorem payload_fields_trimmed_and_defaulted up req d w e p f l ph :
  req_method req = "POST" ->
  req_is_json req = true ->
  req_get_json req = Return (PyDict d) ->
  d !! "email" = Some (PyStr e) -> e ≠ EmptyString ->
  d !! "password" = Some p -> truthy p = true ->
  d !! "firstname" = Some (PyStr f) -> f ≠ EmptyString ->
  d !! "lastname" = Some (PyStr l) -> l ≠ EmptyString ->
  d !! "phoneNumber" = Some (PyStr ph) -> ph ≠ EmptyString ->
  exists payload personal contact : gmap string pyval,
    posted (snd (create_simple_account up req w))
    = (posted w ++ [PostCall base_url default_headers (PyDict payload) 30])%list /\
    payload !! "email" = Some (PyStr (strip e)) /\
    payload !! "personalDetails" = Some (PyDict personal) /\
    personal !! "firstname" = Some (PyStr (strip f)) /\
    personal !! "lastname" = Some (PyStr (strip l)) /\
    payload !! "contactDetails" = Some (PyDict contact) /\
    contact !! "phoneNumber" = Some (PyStr (strip ph)) /\
    (d !! "offer" = None -> payload !! "offer" = Some (PyStr default_offer)) /\
    (d !! "createAsDepositedAccount" = None ->
     payload !! "createAsDepositedAccount" = Some (PyBool false)).
Proof.
  intros Hm Hj Hb He He' Hp Hp' Hf Hf' Hl Hl' Hph Hph'.
  apply post_is_not_options in Hm.
  pose proof (valid_body_intro d e p f l ph He He' Hp Hp' Hf Hf' Hl Hl' Hph Hph')
    as Hvalid.
  pose proof (account_data_valid d e p f l ph He Hp Hf Hl Hph) as Hpayload.
  rewrite (run_forward_posted up req d _ w Hm Hj Hb
             (valid_body_missing d Hvalid) Hpayload).
  do 3 eexists. split; [reflexivity|].
  split; [reflexivity|]. split; [reflexivity|]. split; [reflexivity|].
  split; [reflexivity|]. split; [reflexivity|]. split; [reflexivity|].
  split; intros ->; reflexivity.
Qed.

Lemma payload_fields_trimmed_and_defaulted_witness :
  exists payload personal contact : gmap string pyval,
    posted (snd (create_simple_account upstream_created
                   (post_request (PyDict sample_body)) world0))
    = [PostCall base_url default_headers (PyDict payload) 30] /\
    payload !! "email" = Some (PyStr "ann@example.org") /\
    payload !! "personalDetails" = Some (PyDict personal) /\
    personal !! "firstname" = Some (PyStr "Ann") /\
    personal !! "lastname" = Some (PyStr "Lee") /\
    payload !! "contactDetails" = Some (PyDict contact) /\
    contact !! "phoneNumber" = Some (PyStr "+1 555 0100") /\
    (sample_body !! "offer" = None ->
     payload !! "offer" = Some (PyStr "1a3d47dd-ea8c-4529-9e36-8a42499fcc69")) /\
    (sample_body !! "createAsDepositedAccount" = None ->
     payload !! "createAsDepositedAccount" = Some (PyBool false)).
Proof.
  apply (payload_fields_trimmed_and_defaulted upstream_created
           (post_request (PyDict sample_body)) sample_body world0
           " ann@example.org " (PyStr " s3cret ") " Ann" "Lee " " +1 555 0100 ");
    first [reflexivity | discriminate].
Defined.

(** C5 (as amended): of the string fields of a valid request, [email],
    [firstname], [lastname] and [phoneNumber] go upstream stripped, while
    [password] and a supplied [offer] go upstream exactly as received. *)
Theorem four_fields_trimmed_rest_verbatim up req d w e p f l ph :
  req_method req = "POST" ->
  req_is_json req = true ->
  req_get_json req = Return (PyDict d) ->
  d !! "email" = Some (PyStr e) -> e ≠ EmptyString ->
  d !! "password" = Some p -> truthy p = true ->
  d !! "firstname" = Some (PyStr f) -> f ≠ EmptyString ->
  d !! "lastname" = Some (PyStr l) -> l ≠ EmptyString ->
  d !! "phoneNumber" = Some (PyStr ph) -> ph ≠ EmptyString ->
  exists payload,
    posted (snd (create_simple_account up req w))
    = (posted w ++ [PostCall base_url default_headers payload 30])%list /\
    payload_field payload "email" = Some (PyStr (strip e)) /\
    payload_field payload "firstname" = Some (PyStr (strip f)) /\
    payload_field payload "lastname" = Some (PyStr (strip l)) /\
    payload_field payload "phoneNumber" = Some (PyStr (strip ph)) /\
    payload_field payload "password" = Some p /\
    (forall o, d !! "offer" = Some o -> payload_field payload "offer" = Some o).
Proof.
  intros Hm Hj Hb He He' Hp Hp' Hf Hf' Hl Hl' Hph Hph'.
  apply post_is_not_options in Hm.
  pose proof (valid_body_intro d e p f l ph He He' Hp Hp' Hf Hf' Hl Hl' Hph Hph')
    as Hvalid.
  pose proof (account_data_valid d e p f l ph He Hp Hf Hl Hph) as Hpayload.
  rewrite (run_forward_posted up req d _ w Hm Hj Hb
             (valid_body_missing d Hvalid) Hpayload).
  eexists. split; [reflexivity|].
  repeat (split; [reflexivity|]).
  intros o Ho. rewrite Ho. reflexivity.
Qed.

Lemma four_fields_trimmed_rest_verbatim_witness :
  exists payload,
    posted (snd (create_simple_account upstream_created
                   (post_request (PyDict sample_body_offer)) world0))
    = [PostCall base_url default_headers payload 30] /\
    payload_field payload "email" = Some (PyStr "ann@example.org") /\
    payload_field payload "firstname" = Some (PyStr "Ann") /\
    payload_field payload "lastname" = Some (PyStr EmptyString) /\
    payload_field payload "phoneNumber" = Some (PyStr "+1 555 0100") /\
    payload_field payload "password" = Some (PyStr " s3cret ") /\
    (forall o, sample_body_offer !! "offer" = Some o ->
               payload_field payload "offer" = Some o).
Proof.
  apply (four_fields_trimmed_rest_verbatim upstream_created
           (post_request (PyDict sample_body_offer)) sample_body_offer world0
           " ann@example.org " (PyStr " s3cret ") " Ann" "  " " +1 555 0100 ");
    first [reflexivity | discriminate].
Defined.

(** C5, counterexample: a password and an offer with surrounding blanks reach
    the upstream with the blanks, although stripping would remove them. *)
Lemma password_and_offer_sent_untrimmed :
  let out := create_simple_account upstream_created
               (post_request (PyDict sample_body_offer)) world0 in
  sample_body_offer !! "password" = Some (PyStr " s3cret ") /\
  sample_body_offer !! "offer" = Some (PyStr " gold ") /\
  strip " s3cret " = "s3cret" /\
  strip " gold " = "gold" /\
  List.map (fun c => payload_field (post_data c) "password") (posted (snd out))
  = [Some (PyStr " s3cret ")] /\
  List.map (fun c => payload_field (post_data c) "offer") (posted (snd out))
  = [Some (PyStr " gold ")].
Proof. cbv zeta. repeat split; vm_compute; reflexivity. Qed.

(** C8: in an otherwise valid request, a required stripped field that holds
    only whitespace passes validation (no field is reported), and the one
    call that goes upstream carries the empty string for it. *)
Theorem whitespace_only_field_forwarded_empty up req d w field s :
  req_method req = "POST" ->
  req_is_json req = true ->
  req_get_json req = Return (PyDict d) ->
  valid_body d = true ->
  In field stripped_fields ->
  d !! field = Some (PyStr s) ->
  all_space s = true ->
  eval (missing_fields (PyDict d)) = Return [] /\
  exists payload,
    posted (snd (create_simple_account up req w))
    = (posted w ++ [PostCall base_url default_headers payload 30])%list /\
    payload_field payload field = Some (PyStr EmptyString).
Proof.
  intros Hm Hj Hb Hvalid Hin Hs Hsp.
  apply post_is_not_options in Hm.
  pose proof (valid_body_missing d Hvalid) as Hmiss.
  split; [rewrite missing_fields_eval, Hmiss; reflexivity|].
  destruct (valid_body_payload d Hvalid) as (e & p & f & l & ph & He & Hp & Hf & Hl & Hph).
  pose proof (account_data_valid d e p f l ph He Hp Hf Hl Hph) as Hpayload.
  rewrite (run_forward_posted up req d _ w Hm Hj Hb Hmiss Hpayload).
  eexists. split; [reflexivity|].
  cbn in Hin. destruct Hin as [<-|[<-|[<-|[<-|[]]]]].
  - rewrite He in Hs. injection Hs as ->.
    rewrite (strip_all_space s Hsp). reflexivity.
  - rewrite Hf in Hs. injection Hs as ->.
    rewrite (strip_all_space s Hsp). reflexivity.
  - rewrite Hl in Hs. injection Hs as ->.
    rewrite (strip_all_space s Hsp). reflexivity.
  - rewrite Hph in Hs. injection Hs as ->.
    rewrite (strip_all_space s Hsp). reflexivity.
Qed.

Lemma whitespace_only_field_forwarded_empty_witness :
  eval (missing_fields (PyDict sample_body_offer)) = Return [] /\
  exists payload,
    posted (snd (create_simple_account upstream_created
                   (post_request (PyDict sample_body_offer)) world0))
    = [PostCall base_url default_headers payload 30] /\
    payload_field payload "lastname" = Some (PyStr EmptyString).
Proof.
  apply (whitespace_only_field_forwarded_empty upstream_created
           (post_request (PyDict sample_body_offer)) sample_body_offer world0
           "lastname" "  ");
    first [reflexivity | cbn; tauto].
Defined.

(** ** Relaying the upstream outcome *)

Lemma missing_fields_eval_nil d :
  eval (missing_fields (PyDict d)) = Return [] -> missing_of d = [].
Proof. rewrite missing_fields_eval. intros [= ->]. reflexivity. Qed.

Lemma py_in_created n : py_in n [200; 201] = true <-> n = 200 \/ n = 201.
Proof.
  unfold py_in. cbn [existsb]. rewrite !orb_true_iff, !Z.eqb_eq.
  intuition discriminate.
Qed.


Lemma body_fault_Some r e :
  resp_content r ≠ EmptyString -> resp_json r = Raise e ->
  is_JSONDecodeError (exn_cls e) = false -> body_fault r = Some e.
Proof.
  unfold body_fault. intros Hc -> ->. destruct (resp_content r); [contradiction | reflexivity].
Qed.




(** C4: for a request that passes validation and whose payload is built, an
    outbound call that raises (timeout, connection failure, other transport
    exception, or anything else) is answered with HTTP 500 and the envelope
    with [success] false, [status_code] null and the reason string of the
    failure class; for a timeout that string is
    "Request timed out. Please try again.". *)
Theorem transport_failure_is_500 up req d w payload e :
  req_method req = "POST" ->
  req_is_json req = true ->
  req_get_json req = Return (PyDict d) ->
  eval (missing_fields (PyDict d)) = Return [] ->
  eval (account_data (PyDict d)) = Return payload ->
  up (PostCall base_url default_headers payload 30) = Raises e ->
  let out := create_simple_account up req w in
  fst out = Return (FlaskResponse
    (PyDict {[ "success" := PyBool false;
               "error" := PyStr (stable_reason (exn_cls e));
               "status_code" := PyNone ]})
    (PyInt 500)) /\
  (is_Timeout (exn_cls e) = true ->
   fst out = Return (FlaskResponse
     (PyDict {[ "success" := PyBool false;
                "error" := PyStr "Request timed out. Please try again.";
                "status_code" := PyNone ]})
     (PyInt 500))).
Proof.
  intros Hm Hj Hb Hmiss He Hup out.
  apply post_is_not_options in Hm. apply missing_fields_eval_nil in Hmiss.
  destruct (run_forward_raises up req Hm Hj d payload e w Hb Hmiss He Hup)
    as [lg Hrun].
  subst out. rewrite Hrun. cbn [fst]. split; [reflexivity|].
  destruct (exn_cls e); cbn [is_Timeout]; intros Ht;
    first [discriminate Ht | reflexivity].
Qed.

Lemma transport_failure_is_500_witness :
  fst (create_simple_account upstream_timeout
         (post_request (PyDict sample_body)) world0)
  = Return (FlaskResponse
      (PyDict {[ "success" := PyBool false;
                 "error" := PyStr "Request timed out. Please try again.";
                 "status_code" := PyNone ]})
      (PyInt 500)).
Proof.
  exact (proj2 (transport_failure_is_500 upstream_timeout
           (post_request (PyDict sample_body)) sample_body world0 _ _
           eq_refl eq_refl eq_refl eq_refl eq_refl eq_refl) eq_refl).
Defined.

(** ** Bodies and fields of the wrong type *)

(** C6 (as amended): a body that is valid JSON but not an object never leads
    to an outbound call; when it is falsy ([null], [false], [0], the empty
    string, the empty array) the answer is HTTP 400 with
    "No JSON data provided", and otherwise HTTP 500 with
    "Internal server error occurred". *)
Theorem non_object_body_rejected up req v w :
  req_method req = "POST" ->
  req_is_json req = true ->
  req_get_json req = Return v ->
  is_dict v = false ->
  let out := create_simple_account up req w in
  posted (snd out) = posted w /\
  (truthy v = false ->
   fst out = Return (FlaskResponse
                       (PyDict {[ "success" := PyBool false;
                                  "error" := PyStr "No JSON data provided" ]})
                       (PyInt 400))) /\
  (truthy v = true ->
   fst out = Return (FlaskResponse
                       (PyDict {[ "success" := PyBool false;
                                  "error" := PyStr "Internal server error occurred" ]})
                       (PyInt 500))).
Proof.
  intros Hm Hj Hb Hd out. apply post_is_not_options in Hm.
  destruct (truthy v) eqn:Hv.
  - destruct (run_not_dict up req Hm Hj v w Hb Hv Hd) as [lg Hrun].
    subst out. rewrite Hrun. cbn [fst snd posted].
    split; [reflexivity|]. split; [discriminate | reflexivity].
  - destruct (run_falsy up req Hm Hj v w Hb Hv) as [lg Hrun].
    subst out. rewrite Hrun. cbn [fst snd posted].
    split; [reflexivity|]. split; [reflexivity | discriminate].
Qed.

Lemma non_object_body_rejected_witness :
  let out := create_simple_account upstream_created
               (post_request (PyStr "hello")) world0 in
  posted (snd out) = [] /\
  fst out = Return (FlaskResponse
                      (PyDict {[ "success" := PyBool false;
                                 "error" := PyStr "Internal server error occurred" ]})
                      (PyInt 500)).
Proof.
  cbv zeta.
  destruct (non_object_body_rejected upstream_created
              (post_request (PyStr "hello")) (PyStr "hello") world0
              eq_refl eq_refl eq_refl eq_refl) as (Hposted & _ & Hresp).
  split; [exact Hposted | exact (Hresp eq_refl)].
Defined.

(** C6, counterexample: the JSON array [[1]] is answered with status 500 and
    the catch-all message, not with status 400. *)
Lemma array_body_gets_500 :
  let out := create_simple_account upstream_created
               (post_request (PyList [PyInt 1])) world0 in
  fst out = Return (FlaskResponse
                      (PyDict {[ "success" := PyBool false;
                                 "error" := PyStr "Internal server error occurred" ]})
                      (PyInt 500)) /\
  (forall body, fst out ≠ Return (FlaskResponse body (PyInt 400))).
Proof.
  cbv zeta. split; [reflexivity|].
  intros body H.
  apply (f_equal (fun r => match r with
                           | Return resp => status resp
                           | Raise _ => PyNone
                           end)) in H.
  cbn in H. discriminate H.
Qed.

(** C9: in a request that passes required-field validation, a stripped field
    ([email], [firstname], [lastname] or [phoneNumber]) bound to a value that
    is not a string makes payload construction fault; the answer is HTTP 500
    with "Internal server error occurred", and nothing goes upstream. *)
Theorem non_string_field_internal_error up req d w field v :
  req_method req = "POST" ->
  req_is_json req = true ->
  req_get_json req = Return (PyDict d) ->
  eval (missing_fields (PyDict d)) = Return [] ->
  In field stripped_fields ->
  d !! field = Some v ->
  is_str v = false ->
  let out := create_simple_account up req w in
  fst out = Return (FlaskResponse
                      (PyDict {[ "success" := PyBool false;
                                 "error" := PyStr "Internal server error occurred" ]})
                      (PyInt 500)) /\
  posted (snd out) = posted w.
Proof.
  intros Hm Hj Hb Hmiss Hin Hv Hstr out.
  apply post_is_not_options in Hm. apply missing_fields_eval_nil in Hmiss.
  destruct (eval (account_data (PyDict d))) as [payload|e] eqn:He.
  - pose proof (account_data_Return_inv d payload field He Hin) as Hs.
    rewrite Hv in Hs. cbn in Hs. congruence.
  - destruct (run_payload_fault up req Hm Hj d e w Hb Hmiss He) as [lg Hrun].
    subst out. rewrite Hrun. split; reflexivity.
Qed.

Lemma non_string_field_internal_error_witness :
  let out := create_simple_account upstream_created
               (post_request (PyDict (<[ "phoneNumber" := PyInt 5550100 ]> sample_body)))
               world0 in
  fst out = Return (FlaskResponse
                      (PyDict {[ "success" := PyBool false;
                                 "error" := PyStr "Internal server error occurred" ]})
                      (PyInt 500)) /\
  posted (snd out) = [].
Proof.
  apply (non_string_field_internal_error upstream_created
           (post_request (PyDict (<[ "phoneNumber" := PyInt 5550100 ]> sample_body)))
           (<[ "phoneNumber" := PyInt 5550100 ]> sample_body) world0
           "phoneNumber" (PyInt 5550100));
    first [reflexivity | cbn; tauto].
Defined.

(** C10: a required field bound to a falsy value ([false], [0], [null], and
    the other falsy values alike) is reported in the 400 answer
    "Missing required fields: ..." just as an absent key is: the reported
    list is the one of the body without the key, and the answer is the one
    given to that body whenever that body is not the empty object. *)
Theorem falsy_field_reported_as_missing up req d w field v :
  req_method req = "POST" ->
  req_is_json req = true ->
  req_get_json req = Return (PyDict d) ->
  In field required_fields ->
  d !! field = Some v ->
  truthy v = false ->
  let out := create_simple_account up req w in
  fst out = Return (FlaskResponse
                      (PyDict {[ "success" := PyBool false;
                                 "error" := PyStr ("Missing required fields: "
                                                   +:+ String.concat ", " (missing_of d)) ]})
                      (PyInt 400)) /\
  posted (snd out) = posted w /\
  In field (missing_of d) /\
  missing_of (delete field d) = missing_of d /\
  (forall req',
     req_method req' = "POST" -> req_is_json req' = true ->
     req_get_json req' = Return (PyDict (delete field d)) ->
     delete field d ≠ ∅ ->
     fst (create_simple_account up req' w) = fst out).
Proof.
  intros Hm Hj Hb Hin Hv Hfalsy out. apply post_is_not_options in Hm.
  pose proof (lookup_truthy_falsy d field v Hv Hfalsy) as Hlt.
  assert (Hlisted : In field (missing_of d)).
  { apply In_missing_of. split; assumption. }
  assert (Hne : d ≠ ∅).
  { intros ->. rewrite lookup_empty in Hv. discriminate. }
  assert (Hmiss : missing_of d ≠ []).
  { intros Hnil. rewrite Hnil in Hlisted. destruct Hlisted. }
  destruct (run_missing up req Hm Hj d w Hb Hne Hmiss) as [lg Hrun].
  subst out. rewrite Hrun. cbn [fst snd posted].
  split; [reflexivity|]. split; [reflexivity|]. split; [exact Hlisted|].
  split; [apply missing_of_delete_falsy, Hlt|].
  intros req' Hm' Hj' Hb' Hne'. apply post_is_not_options in Hm'.
  destruct (run_missing up req' Hm' Hj' (delete field d) w Hb' Hne') as [lg' Hrun'].
  { rewrite (missing_of_delete_falsy d field Hlt). exact Hmiss. }
  rewrite Hrun', (missing_of_delete_falsy d field Hlt). reflexivity.
Qed.

(** The theorem at a body whose [password] is [null] and whose [lastname] is
    [0]; both are named, and dropping the [password] key changes nothing. *)
Lemma falsy_field_reported_as_missing_witness :
  let d := <[ "password" := PyNone ]> (<[ "lastname" := PyInt 0 ]> sample_body) in
  fst (create_simple_account upstream_created (post_request (PyDict d)) world0)
  = Return (FlaskResponse
              (PyDict {[ "success" := PyBool false;
                         "error" := PyStr "Missing required fields: password, lastname" ]})
              (PyInt 400)) /\
  fst (create_simple_account upstream_created
         (post_request (PyDict (delete "password" d))) world0)
  = Return (FlaskResponse
              (PyDict {[ "success" := PyBool false;
                         "error" := PyStr "Missing required fields: password, lastname" ]})
              (PyInt 400)).
Proof.
  cbv zeta.
  assert (Hin : In "password" required_fields) by (cbn; tauto).
  assert (Hv : (<[ "password" := PyNone ]> (<[ "lastname" := PyInt 0 ]> sample_body)
                : gmap string pyval) !! "password" = Some PyNone) by reflexivity.
  assert (Hne : delete "password"
                  (<[ "password" := PyNone ]> (<[ "lastname" := PyInt 0 ]> sample_body))
                ≠ (∅ : gmap string pyval)).
  { intros H. apply (f_equal (fun m : gmap string pyval => m !! "email")) in H.
    discriminate H. }
  destruct (falsy_field_reported_as_missing upstream_created
              (post_request (PyDict (<[ "password" := PyNone ]>
                                       (<[ "lastname" := PyInt 0 ]> sample_body))))
              _ world0 "password" PyNone eq_refl eq_refl eq_refl Hin Hv eq_refl)
    as (Hresp & _ & _ & _ & Hsame).
  split; [exact Hresp|].
  rewrite (Hsame (post_request (PyDict (delete "password"
                    (<[ "password" := PyNone ]>
                       (<[ "lastname" := PyInt 0 ]> sample_body)))))
             eq_refl eq_refl eq_refl Hne).
  exact Hresp.
Defined.

(** ** Exception text stays on the server *)

(** Every run of the handler on a request that is not a preflight ends in one
    of these shapes; only the log depends on the text of an exception. *)
Lemma run_total up req w :
  String.eqb (req_method req) "OPTIONS" = false ->
  exists lg calls resp,
    create_simple_account up req w = (Return resp, World lg (posted w ++ calls)).
Proof.
  intros Hm. destruct (req_is_json req) eqn:Hj.
  2:{ destruct (run_not_json up req w Hm Hj) as [lg ->].
      exists lg, []. eexists. rewrite app_nil_r. reflexivity. }
  destruct (req_get_json req) as [v|e] eqn:Hb.
  2:{ destruct (run_not_decodable up req Hm Hj e w Hb) as [lg ->].
      exists lg, []. eexists. rewrite app_nil_r. reflexivity. }
  destruct (truthy v) eqn:Hv.
  2:{ destruct (run_falsy up req Hm Hj v w Hb Hv) as [lg ->].
      exists lg, []. eexists. rewrite app_nil_r. reflexivity. }
  destruct (is_dict v) eqn:Hd.
  2:{ destruct (run_not_dict up req Hm Hj v w Hb Hv Hd) as [lg ->].
      exists lg, []. eexists. rewrite app_nil_r. reflexivity. }
  destruct v as [| | | | | |d]; try discriminate Hd.
  destruct (missing_of d) as [|f fs] eqn:Hmiss.
  2:{ destruct (run_missing up req Hm Hj d w Hb) as [lg ->].
      - intros ->. discriminate Hv.
      - rewrite Hmiss. discriminate.
      - exists lg, []. eexists. rewrite app_nil_r. reflexivity. }
  destruct (eval (account_data (PyDict d))) as [payload|e] eqn:He.
  2:{ destruct (run_payload_fault up req Hm Hj d e w Hb Hmiss He) as [lg ->].
      exists lg, []. eexists. rewrite app_nil_r. reflexivity. }
  destruct (service_fault (up (call_with payload))) as [e|] eqn:Hf.
  - destruct (run_forward_fault up req Hm Hj d payload e w Hb Hmiss He Hf)
      as [lg ->]. exists lg, [call_with payload]. eexists. reflexivity.
  - destruct (service_fault_None _ Hf) as (r & Hup & Hbody).
    destruct (run_forward_responds up req Hm Hj d payload r w Hb Hmiss He Hup Hbody)
      as [lg ->]. exists lg, [call_with payload]. eexists. reflexivity.
Qed.

(** Outcomes that agree up to exception text fail with the same class, or
    are responses with the same status and the same parsed body. *)
Lemma same_up_to_text_fault o1 o2 :
  same_up_to_text o1 o2 ->
  (exists e1 e2, service_fault o1 = Some e1 /\ service_fault o2 = Some e2 /\
                 exn_cls e1 = exn_cls e2) \/
  (exists r1 r2, o1 = Responds r1 /\ o2 = Responds r2 /\
                 body_fault r1 = None /\ body_fault r2 = None /\
                 resp_status_code r1 = resp_status_code r2 /\
                 parsed_body r1 = parsed_body r2).
Proof.
  destruct o1 as [r1|e1], o2 as [r2|e2]; cbn [same_up_to_text service_fault];
    try contradiction.
  2:{ intros Hcls. left. exists e1, e2. auto. }
  intros (Hst & _ & Hc & Ht & Hj).
  assert (Hcases :
    (body_fault r1 = None /\ body_fault r2 = None /\ parsed_body r1 = parsed_body r2)
    \/ (exists e1 e2, body_fault r1 = Some e1 /\ body_fault r2 = Some e2 /\
                      exn_cls e1 = exn_cls e2)).
  { unfold body_fault, parsed_body. rewrite <- Hc, <- Ht.
    destruct (resp_content r1); [left; auto|].
    destruct (resp_json r1) as [v1|e1], (resp_json r2) as [v2|e2];
      cbn [same_body_up_to_text] in Hj; try contradiction.
    - subst v2. left. auto.
    - rewrite <- Hj. destruct (is_JSONDecodeError (exn_cls e1)).
      + left. auto.
      + right. exists e1, e2. auto. }
  destruct Hcases as [(Hf1 & Hf2 & Hpb) | (e1 & e2 & Hf1 & Hf2 & Hcls)].
  - right. exists r1, r2. auto 10.
  - left. exists e1, e2. auto.
Qed.

(** C7: two executions of the handler that differ only in the text of the
    exceptions raised (by [request.get_json()], by the outbound call or by
    decoding its response) and in what has been logged so far return the
    same response to the client: the same body and the same status. *)
Theorem response_independent_of_exception_text up1 up2 req1 req2 w1 w2 :
  req_method req1 = req_method req2 ->
  req_is_json req1 = req_is_json req2 ->
  same_body_up_to_text (req_get_json req1) (req_get_json req2) ->
  (forall c, same_up_to_text (up1 c) (up2 c)) ->
  fst (create_simple_account up1 req1 w1)
  = fst (create_simple_account up2 req2 w2).
Proof.
  intros Hmeth Hjs Hbody Hup.
  destruct (String.eqb (req_method req1) "OPTIONS") eqn:Hm1.
  { assert (Hm2 := Hm1). rewrite Hmeth in Hm2.
    destruct (run_options up1 req1 w1 Hm1) as [lg1 ->].
    destruct (run_options up2 req2 w2 Hm2) as [lg2 ->]. reflexivity. }
  assert (Hm2 := Hm1). rewrite Hmeth in Hm2.
  destruct (req_is_json req1) eqn:Hj1; symmetry in Hjs.
  2:{ destruct (run_not_json up1 req1 w1 Hm1 Hj1) as [lg1 ->].
      destruct (run_not_json up2 req2 w2 Hm2 Hjs) as [lg2 ->]. reflexivity. }
  destruct (req_get_json req1) as [v|e1] eqn:Hb1,
           (req_get_json req2) as [v2|e2] eqn:Hb2;
    cbn in Hbody; try contradiction.
  2:{ destruct (run_not_decodable up1 req1 Hm1 Hj1 e1 w1 Hb1) as [lg1 ->].
      destruct (run_not_decodable up2 req2 Hm2 Hjs e2 w2 Hb2) as [lg2 ->].
      reflexivity. }
  subst v2.
  destruct (truthy v) eqn:Hv.
  2:{ destruct (run_falsy up1 req1 Hm1 Hj1 v w1 Hb1 Hv) as [lg1 ->].
      destruct (run_falsy up2 req2 Hm2 Hjs v w2 Hb2 Hv) as [lg2 ->].
      reflexivity. }
  destruct (is_dict v) eqn:Hd.
  2:{ destruct (run_not_dict up1 req1 Hm1 Hj1 v w1 Hb1 Hv Hd) as [lg1 ->].
      destruct (run_not_dict up2 req2 Hm2 Hjs v w2 Hb2 Hv Hd) as [lg2 ->].
      reflexivity. }
  destruct v as [| | | | | |d]; try discriminate Hd.
  assert (Hne : d ≠ ∅) by (intros ->; discriminate Hv).
  destruct (missing_of d) as [|f fs] eqn:Hmiss.
  2:{ assert (Hcons : missing_of d ≠ []) by (rewrite Hmiss; discriminate).
      destruct (run_missing up1 req1 Hm1 Hj1 d w1 Hb1 Hne Hcons) as [lg1 ->].
      destruct (run_missing up2 req2 Hm2 Hjs d w2 Hb2 Hne Hcons) as [lg2 ->].
      reflexivity. }
  destruct (eval (account_data (PyDict d))) as [payload|e] eqn:He.
  2:{ destruct (run_payload_fault up1 req1 Hm1 Hj1 d e w1 Hb1 Hmiss He) as [lg1 ->].
      destruct (run_payload_fault up2 req2 Hm2 Hjs d e w2 Hb2 Hmiss He) as [lg2 ->].
      reflexivity. }
  specialize (Hup (call_with payload)).
  destruct (same_up_to_text_fault _ _ Hup) as [(e1 & e2 & Hf1 & Hf2 & Hcls) | Hsame].
  - destruct (run_forward_fault up1 req1 Hm1 Hj1 d payload e1 w1 Hb1 Hmiss He Hf1)
      as [lg1 ->].
    destruct (run_forward_fault up2 req2 Hm2 Hjs d payload e2 w2 Hb2 Hmiss He Hf2)
      as [lg2 ->].
    cbn [fst]. rewrite Hcls. reflexivity.
  - destruct Hsame as (r1 & r2 & Hup1 & Hup2 & Hb1' & Hb2' & Hst & Hpb).
    destruct (run_forward_responds up1 req1 Hm1 Hj1 d payload r1 w1 Hb1 Hmiss He Hup1 Hb1')
      as [lg1 ->].
    destruct (run_forward_responds up2 req2 Hm2 Hjs d payload r2 w2 Hb2 Hmiss He Hup2 Hb2')
      as [lg2 ->].
    cbn [fst]. rewrite Hst, Hpb. reflexivity.
Qed.

(** Two connection failures with different texts, and two undecodable bodies
    with different texts. *)
Lemma response_independent_of_exception_text_witness :
  fst (create_simple_account
         (fun _ => Raises (Exn ConnectionError "Name or service not known"))
         (post_request (PyDict sample_body)) world0)
  = fst (create_simple_account
           (fun _ => Raises (Exn ConnectionError "Connection refused"))
           (post_request (PyDict sample_body)) world0)
  /\
  fst (create_simple_account upstream_created
         (Request "POST" true (Raise (Exn BadRequest "Expecting value: line 1")))
         world0)
  = fst (create_simple_account upstream_created
           (Request "POST" true (Raise (Exn BadRequest "Extra data: line 2")))
           world0).
Proof.
  split.
  - apply response_independent_of_exception_text;
      [reflexivity | reflexivity | reflexivity | intros c; reflexivity].
  - apply response_independent_of_exception_text;
      [reflexivity | reflexivity | reflexivity | ].
    intros c. unfold same_up_to_text, upstream_created.
    repeat split; reflexivity.
Defined.

(** * Further properties of the handler *)

(** ** The early exits *)

(** X1: a preflight (OPTIONS) request is answered with status 200 and
    [{"status": "ok"}] whatever its content type and body, without decoding
    the body and without any outbound call. *)
Theorem preflight_always_ok up req w :
  req_method req = "OPTIONS" ->
  let out := create_simple_account up req w in
  fst out = Return (FlaskResponse (PyDict {[ "status" := PyStr "ok" ]}) (PyInt 200)) /\
  posted (snd out) = posted w.
Proof.
  intros Hm out.
  destruct (run_options up req w) as [lg Hrun]; [rewrite Hm; reflexivity|].
  subst out. rewrite Hrun. split; reflexivity.
Qed.

Lemma preflight_always_ok_witness :
  let out := create_simple_account upstream_timeout
               (Request "OPTIONS" true (Raise (Exn BadRequest "Expecting value")))
               world0 in
  fst out = Return (FlaskResponse (PyDict {[ "status" := PyStr "ok" ]}) (PyInt 200)) /\
  posted (snd out) = [].
Proof.
  exact (preflight_always_ok upstream_timeout
           (Request "OPTIONS" true (Raise (Exn BadRequest "Expecting value")))
           world0 eq_refl).
Defined.

(** X2: a POST whose content type is not JSON is answered with status 400
    and "Content-Type must be application/json"; the body is not looked at
    and nothing goes upstream. *)
Theorem not_json_rejected up req w :
  req_method req = "POST" ->
  req_is_json req = false ->
  let out := create_simple_account up req w in
  fst out = Return (FlaskResponse
                      (PyDict {[ "success" := PyBool false;
                                 "error" := PyStr "Content-Type must be application/json" ]})
                      (PyInt 400)) /\
  posted (snd out) = posted w.
Proof.
  intros Hm Hj out. apply post_is_not_options in Hm.
  destruct (run_not_json up req w Hm Hj) as [lg Hrun].
  subst out. rewrite Hrun. split; reflexivity.
Qed.

Lemma not_json_rejected_witness :
  let out := create_simple_account upstream_created
               (Request "POST" false (Return (PyDict sample_body))) world0 in
  fst out = Return (FlaskResponse
                      (PyDict {[ "success" := PyBool false;
                                 "error" := PyStr "Content-Type must be application/json" ]})
                      (PyInt 400)) /\
  posted (snd out) = [].
Proof.
  exact (not_json_rejected upstream_created
           (Request "POST" false (Return (PyDict sample_body))) world0
           eq_refl eq_refl).
Defined.

(** X3: a POST with a JSON content type whose body does not decode makes
    [request.get_json()] raise inside the [try]; the catch-all handler
    answers with status 500 and "Internal server error occurred", not with a
    400, and nothing goes upstream. *)
Theorem undecodable_body_is_500 up req e w :
  req_method req = "POST" ->
  req_is_json req = true ->
  req_get_json req = Raise e ->
  let out := create_simple_account up req w in
  fst out = Return (FlaskResponse
                      (PyDict {[ "success" := PyBool false;
                                 "error" := PyStr "Internal server error occurred" ]})
                      (PyInt 500)) /\
  posted (snd out) = posted w.
Proof.
  intros Hm Hj Hb out. apply post_is_not_options in Hm.
  destruct (run_not_decodable up req Hm Hj e w Hb) as [lg Hrun].
  subst out. rewrite Hrun. split; reflexivity.
Qed.

Lemma undecodable_body_is_500_witness :
  let out := create_simple_account upstream_created
               (Request "POST" true (Raise (Exn BadRequest "Expecting value")))
               world0 in
  fst out = Return (FlaskResponse
                      (PyDict {[ "success" := PyBool false;
                                 "error" := PyStr "Internal server error occurred" ]})
                      (PyInt 500)) /\
  posted (snd out) = [].
Proof.
  exact (undecodable_body_is_500 upstream_created
           (Request "POST" true (Raise (Exn BadRequest "Expecting value")))
           (Exn BadRequest "Expecting value") world0 eq_refl eq_refl eq_refl).
Defined.

(** ** Every run, case by case *)

(** A request that is not a preflight returns a response and makes the
    outbound calls that [relays] gives for it, whatever was logged before. *)
Lemma run_relays up req w :
  String.eqb (req_method req) "OPTIONS" = false ->
  exists lg resp calls,
    create_simple_account up req w = (Return resp, World lg (posted w ++ calls))
    /\ relays up req resp calls.
Proof.
  intros Hm. destruct (req_is_json req) eqn:Hj.
  2:{ destruct (run_not_json up req w Hm Hj) as [lg ->].
      exists lg. do 2 eexists. split; [|apply relays_not_json, Hj].
      rewrite app_nil_r. reflexivity. }
  destruct (req_get_json req) as [v|e] eqn:Hb.
  2:{ destruct (run_not_decodable up req Hm Hj e w Hb) as [lg ->].
      exists lg. do 2 eexists. split; [|eapply relays_not_decodable; eassumption].
      rewrite app_nil_r. reflexivity. }
  destruct (truthy v) eqn:Hv.
  2:{ destruct (run_falsy up req Hm Hj v w Hb Hv) as [lg ->].
      exists lg. do 2 eexists. split; [|eapply relays_no_data; eassumption].
      rewrite app_nil_r. reflexivity. }
  destruct (is_dict v) eqn:Hd.
  2:{ destruct (run_not_dict up req Hm Hj v w Hb Hv Hd) as [lg ->].
      exists lg. do 2 eexists. split; [|eapply relays_not_dict; eassumption].
      rewrite app_nil_r. reflexivity. }
  destruct v as [| | | | | |d]; try discriminate Hd.
  assert (Hne : d ≠ ∅) by (intros ->; discriminate Hv).
  destruct (missing_of d) as [|f fs] eqn:Hmiss.
  2:{ assert (Hcons : missing_of d ≠ []) by (rewrite Hmiss; discriminate).
      destruct (run_missing up req Hm Hj d w Hb Hne Hcons) as [lg ->].
      exists lg. do 2 eexists. split; [|eapply relays_missing; eassumption].
      rewrite app_nil_r. reflexivity. }
  destruct (eval (account_data (PyDict d))) as [payload|e] eqn:He.
  2:{ destruct (run_payload_fault up req Hm Hj d e w Hb Hmiss He) as [lg ->].
      exists lg. do 2 eexists. split; [|eapply relays_payload_fault; eassumption].
      rewrite app_nil_r. reflexivity. }
  destruct (service_fault (up (call_with payload))) as [e|] eqn:Hf.
  - destruct (run_forward_fault up req Hm Hj d payload e w Hb Hmiss He Hf)
      as [lg ->].
    exists lg. do 2 eexists. split; [reflexivity|].
    eapply relays_failure; eassumption.
  - destruct (service_fault_None _ Hf) as (r & Hup & Hbody).
    destruct (run_forward_responds up req Hm Hj d payload r w Hb Hmiss He Hup Hbody)
      as [lg ->].
    exists lg. do 2 eexists. split; [reflexivity|].
    eapply relays_response; eassumption.
Qed.

(** X4: the handler never lets an exception escape: for every request,
    every behaviour of the upstream and every decoding failure it returns a
    response. *)
Theorem handler_never_raises up req w :
  exists resp w', create_simple_account up req w = (Return resp, w').
Proof.
  destruct (String.eqb (req_method req) "OPTIONS") eqn:Hm.
  - destruct (run_options up req w Hm) as [lg ->]. do 2 eexists. reflexivity.
  - destruct (run_total up req w Hm) as (lg & calls & resp & ->).
    do 2 eexists. reflexivity.
Qed.

(** ** Outbound calls *)

Lemma forwarded_body_valid d payload :
  missing_of d = [] -> eval (account_data (PyDict d)) = Return payload ->
  valid_body d = true.
Proof.
  intros Hmiss He. unfold valid_body. apply andb_true_intro. split.
  - apply forallb_forall. intros field Hin. apply andb_true_intro. split.
    + exact (account_data_Return_inv d payload field He Hin).
    + apply missing_of_nil; [exact Hmiss|].
      cbn in Hin. cbn. tauto.
  - apply missing_of_nil; [exact Hmiss | cbn; tauto].
Qed.

(** X5: [create_account] never raises: its result is always a dict with a
    boolean [success] and a [status_code].  [success] is true only when the
    upstream responded with status 200 or 201, and [status_code] is then that
    status; when the call raises, or when decoding the response raises
    anything but a JSON decode error, [success] is false and [status_code] is
    [None]. *)
Theorem service_always_answers up payload w :
  exists (result : gmap string pyval) w' b,
    create_account up payload w = (Return (PyDict result), w') /\
    result !! "success" = Some (PyBool b) /\
    is_Some (result !! "status_code") /\
    (b = true ->
     exists r, up (PostCall base_url default_headers payload 30) = Responds r /\
               (resp_status_code r = 200 \/ resp_status_code r = 201) /\
               result !! "status_code" = Some (PyInt (resp_status_code r))) /\
    ((exists e, up (PostCall base_url default_headers payload 30) = Raises e) ->
     b = false /\ result !! "status_code" = Some PyNone) /\
    (forall r e,
       up (PostCall base_url default_headers payload 30) = Responds r ->
       resp_content r ≠ EmptyString -> resp_json r = Raise e ->
       is_JSONDecodeError (exn_cls e) = false ->
       b = false /\ result !! "status_code" = Some PyNone).
Proof.
  fold (call_with payload).
  destruct (service_fault (up (call_with payload))) as [e|] eqn:Hf.
  - destruct (create_account_fault up payload e w Hf) as [lg ->].
    do 3 eexists. split; [reflexivity|]. split; [reflexivity|].
    split; [eexists; reflexivity|]. split; [discriminate|].
    split; intros; split; reflexivity.
  - destruct (service_fault_None _ Hf) as (r & Hup & Hbody).
    destruct (create_account_responds up payload r w Hup Hbody) as [lg ->].
    do 3 eexists. split; [reflexivity|]. split; [reflexivity|].
    split; [eexists; reflexivity|]. split.
    + intros Hs%py_in_created. exists r. split; [exact Hup|]. split; [exact Hs | reflexivity].
    + split.
      * intros (e & He). rewrite Hup in He. discriminate He.
      * intros r' e Hr Hc Hj Hcls. rewrite Hup in Hr. injection Hr as <-.
        rewrite (body_fault_Some r e Hc Hj Hcls) in Hbody. discriminate Hbody.
Qed.

(** X6: a request leads to at most one outbound call, and to one only when
    its body is an object that passes validation with string values in the
    four stripped fields; the call then goes to the fixed broker URL with the
    fixed headers and timeout and carries the payload built from the body. *)
Theorem at_most_one_call up req w :
  let out := create_simple_account up req w in
  posted (snd out) = posted w \/
  exists d payload,
    req_get_json req = Return (PyDict d) /\
    valid_body d = true /\
    eval (account_data (PyDict d)) = Return payload /\
    posted (snd out)
    = (posted w ++ [PostCall base_url default_headers payload 30])%list.
Proof.
  intros out. subst out.
  destruct (String.eqb (req_method req) "OPTIONS") eqn:Hm.
  { destruct (run_options up req w Hm) as [lg ->]. left. reflexivity. }
  destruct (run_relays up req w Hm) as (lg & resp & calls & -> & Hrel).
  cbn [snd posted].
  destruct Hrel; try (left; apply app_nil_r).
  - right. exists d, payload. split; [assumption|].
    split; [eapply forwarded_body_valid; eassumption|].
    split; [assumption | reflexivity].
  - right. exists d, payload. split; [assumption|].
    split; [eapply forwarded_body_valid; eassumption|].
    split; [assumption | reflexivity].
Qed.

(** ** The envelope *)

(** X7: every answer to a POST is an envelope: a JSON object with a boolean
    [success] and an integer HTTP status.  [success] is true exactly when
    the HTTP status is 200, and then exactly one outbound call was made. *)
Theorem envelope_success_iff_200 up req w :
  req_method req = "POST" ->
  let out := create_simple_account up req w in
  exists (m : gmap string pyval) b code,
    fst out = Return (FlaskResponse (PyDict m) (PyInt code)) /\
    m !! "success" = Some (PyBool b) /\
    (b = true <-> code = 200) /\
    (b = true -> exists c, posted (snd out) = (posted w ++ [c])%list).
Proof.
  intros Hm out. subst out. apply post_is_not_options in Hm.
  destruct (run_relays up req w Hm) as (lg & resp & calls & -> & Hrel).
  cbn [fst snd posted].
  destruct Hrel;
    try (do 3 eexists; split; [reflexivity|]; split; [reflexivity|];
         split; [split; discriminate | discriminate]).
  do 3 eexists. split; [reflexivity|]. split; [reflexivity|].
  destruct (py_in (resp_status_code r) [200; 201]) eqn:Hin.
  - split; [split; reflexivity|]. intros _. eexists. reflexivity.
  - split; [|discriminate]. split; [discriminate|].
    intros H200. exfalso.
    assert (Hc : py_in (resp_status_code r) [200; 201] = true)
      by (apply py_in_created; left; exact H200).
    congruence.
Qed.

Lemma envelope_success_iff_200_witness :
  exists (m : gmap string pyval) b code,
    fst (create_simple_account upstream_duplicate
           (post_request (PyDict sample_body)) world0)
    = Return (FlaskResponse (PyDict m) (PyInt code)) /\
    m !! "success" = Some (PyBool b) /\
    (b = true <-> code = 200) /\
    (b = true ->
     exists c, posted (snd (create_simple_account upstream_duplicate
                              (post_request (PyDict sample_body)) world0))
               = [c]).
Proof.
  exact (envelope_success_iff_200 upstream_duplicate
           (post_request (PyDict sample_body)) world0 eq_refl).
Defined.

(** ** What stripping removes *)

Lemma lstrip_split s :
  exists pre, s = pre +:+ lstrip s /\ all_space pre = true.
Proof.
  induction s as [|c s (pre & Hs & Hpre)]; [exists EmptyString; split; reflexivity|].
  cbn [lstrip]. destruct (isspace c) eqn:Hc.
  - exists (String c pre). split.
    + rewrite Hs at 1. reflexivity.
    + cbn [all_space]. rewrite Hc, Hpre. reflexivity.
  - exists EmptyString. split; reflexivity.
Qed.

Lemma lstrip_no_leading_space s : starts_with_space (lstrip s) = false.
Proof.
  induction s as [|c s IH]; [reflexivity|].
  cbn [lstrip]. destruct (isspace c) eqn:Hc; [exact IH | exact Hc].
Qed.

Lemma lstrip_fixed s : starts_with_space s = false -> lstrip s = s.
Proof. destruct s as [|c s]; [reflexivity|]. cbn [starts_with_space lstrip]. intros ->. reflexivity. Qed.

Lemma rstrip_split s :
  exists post, s = rstrip s +:+ post /\ all_space post = true.
Proof.
  induction s as [|c s (post & Hs & Hpost)]; [exists EmptyString; split; reflexivity|].
  cbn [rstrip]. destruct (rstrip s) as [|c' r] eqn:Hr.
  - change (s = post) in Hs. subst post.
    destruct (isspace c) eqn:Hc.
    + exists (String c s). split; [reflexivity|].
      cbn [all_space]. rewrite Hc, Hpost. reflexivity.
    + exists s. split; [reflexivity | exact Hpost].
  - exists post. split; [|exact Hpost]. rewrite Hs at 1. reflexivity.
Qed.

Lemma rstrip_no_trailing_space s : ends_with_space (rstrip s) = false.
Proof.
  induction s as [|c s IH]; [reflexivity|].
  cbn [rstrip]. destruct (rstrip s) as [|c' r].
  - destruct (isspace c) eqn:Hc; [reflexivity | exact Hc].
  - exact IH.
Qed.

Lemma rstrip_keeps_head s :
  starts_with_space s = false -> starts_with_space (rstrip s) = false.
Proof.
  destruct s as [|c s]; [reflexivity|]. cbn [starts_with_space rstrip].
  intros Hc. destruct (rstrip s); [rewrite Hc|]; exact Hc.
Qed.

Lemma lstrip_app_space pre s : all_space pre = true -> lstrip (pre +:+ s) = lstrip s.
Proof.
  induction pre as [|c pre IH]; [reflexivity|].
  cbn [all_space]. intros [Hc Hpre]%andb_prop.
  change (lstrip (String c (pre +:+ s)) = lstrip s).
  cbn [lstrip]. rewrite Hc. exact (IH Hpre).
Qed.

Lemma rstrip_all_space s : all_space s = true -> rstrip s = EmptyString.
Proof.
  induction s as [|c s IH]; [reflexivity|].
  cbn [all_space rstrip]. intros [Hc Hs]%andb_prop.
  rewrite (IH Hs), Hc. reflexivity.
Qed.

Lemma rstrip_app_space s post :
  all_space post = true -> rstrip (s +:+ post) = rstrip s.
Proof.
  intros Hpost. induction s as [|c s IH]; [exact (rstrip_all_space post Hpost)|].
  change (rstrip (String c (s +:+ post)) = rstrip (String c s)).
  cbn [rstrip]. rewrite IH. reflexivity.
Qed.

Lemma rstrip_fixed s : ends_with_space s = false -> rstrip s = s.
Proof.
  induction s as [|c s IH]; [reflexivity|].
  destruct s as [|c' s'].
  - cbn [ends_with_space rstrip]. intros ->. reflexivity.
  - intros He. change (ends_with_space (String c' s') = false) in He.
    change (rstrip (String c (String c' s')))
      with (match rstrip (String c' s') with
            | EmptyString => if isspace c then EmptyString else String c EmptyString
            | r => String c r
            end).
    rewrite (IH He). reflexivity.
Qed.

(** [strip s] is what is left of [s] between a run of leading and a run of
    trailing whitespace, and has no whitespace at either end. *)
Lemma strip_split s :
  exists pre post,
    s = pre +:+ strip s +:+ post /\
    all_space pre = true /\ all_space post = true /\
    starts_with_space (strip s) = false /\ ends_with_space (strip s) = false.
Proof.
  destruct (lstrip_split s) as (pre & Hs & Hpre).
  destruct (rstrip_split (lstrip s)) as (post & Hl & Hpost).
  exists pre, post. unfold strip.
  split; [rewrite <- Hl; exact Hs|].
  split; [exact Hpre|]. split; [exact Hpost|].
  split; [apply rstrip_keeps_head, lstrip_no_leading_space
         | apply rstrip_no_trailing_space].
Qed.

(** It is the only such string. *)
Lemma strip_unique pre core post :
  all_space pre = true -> all_space post = true ->
  starts_with_space core = false -> ends_with_space core = false ->
  strip (pre +:+ core +:+ post) = core.
Proof.
  intros Hpre Hpost Hhead Hlast. unfold strip.
  rewrite (lstrip_app_space pre _ Hpre).
  destruct core as [|c core].
  - change (rstrip (lstrip post) = EmptyString).
    rewrite (lstrip_all_space post Hpost). reflexivity.
  - rewrite lstrip_fixed by exact Hhead.
    rewrite (rstrip_app_space _ post Hpost). apply rstrip_fixed, Hlast.
Qed.

Lemma strip_idempotent s : strip (strip s) = strip s.
Proof.
  destruct (strip_split s) as (pre & post & _ & _ & _ & Hhead & Hlast).
  unfold strip at 1. rewrite (lstrip_fixed _ Hhead). apply rstrip_fixed, Hlast.
Qed.

(** ** More on the payload *)

Lemma account_data_Return_password d payload :
  eval (account_data (PyDict d)) = Return payload -> is_Some (d !! "password").
Proof.
  unfold eval, account_data. run. cbn [py_getitem py_get].
  destruct (d !! "email") as [[]|]; run; cbn [py_strip]; run;
    try (cbn [fst]; discriminate).
  destruct (d !! "password") as [p|]; run; try (cbn [fst]; discriminate).
  intros _. exists p. reflexivity.
Qed.

Lemma is_str_lookup (d : gmap string pyval) (field : string) :
  is_str (default PyNone (d !! field)) = true -> exists s, d !! field = Some (PyStr s).
Proof.
  destruct (d !! field) as [[]|]; try discriminate. intros _. eexists. reflexivity.
Qed.

(** X8: on an object body, payload construction succeeds exactly when the
    [password] key is present and [email], [firstname], [lastname] and
    [phoneNumber] are bound to strings; neither [offer] nor
    [createAsDepositedAccount] nor any other key matters. *)
Theorem account_data_succeeds_iff d :
  (exists payload, eval (account_data (PyDict d)) = Return payload)
  <-> is_Some (d !! "password") /\
      forall field, In field stripped_fields ->
                    is_str (default PyNone (d !! field)) = true.
Proof.
  split.
  - intros [payload He]. split.
    + exact (account_data_Return_password d payload He).
    + intros field Hin. exact (account_data_Return_inv d payload field He Hin).
  - intros [[p Hp] Hstr].
    destruct (is_str_lookup d "email") as [e He]; [apply Hstr; cbn; tauto|].
    destruct (is_str_lookup d "firstname") as [f Hf]; [apply Hstr; cbn; tauto|].
    destruct (is_str_lookup d "lastname") as [l Hl]; [apply Hstr; cbn; tauto|].
    destruct (is_str_lookup d "phoneNumber") as [ph Hph]; [apply Hstr; cbn; tauto|].
    eexists. exact (account_data_valid d e p f l ph He Hp Hf Hl Hph).
Qed.

(** X9: once validation has passed, the only way payload construction can
    fault is [.strip()] on a value that is not a string: the exception is the
    [AttributeError] of such a value in one of the four stripped fields, and
    never a [KeyError] or [TypeError] of a subscript. *)
Theorem payload_fault_is_attribute_error d e :
  eval (missing_fields (PyDict d)) = Return [] ->
  eval (account_data (PyDict d)) = Raise e ->
  exists field v,
    In field stripped_fields /\ d !! field = Some v /\ is_str v = false /\
    e = Exn AttributeError
          ("'" +:+ type_name v +:+ "' object has no attribute 'strip'").
Proof.
  intros Hmiss%missing_fields_eval_nil.
  destruct (lookup_truthy_Some d "email") as (ve & He & _);
    [apply missing_of_nil; [exact Hmiss | cbn; tauto]|].
  destruct (lookup_truthy_Some d "password") as (vp & Hp & _);
    [apply missing_of_nil; [exact Hmiss | cbn; tauto]|].
  destruct (lookup_truthy_Some d "firstname") as (vf & Hf & _);
    [apply missing_of_nil; [exact Hmiss | cbn; tauto]|].
  destruct (lookup_truthy_Some d "lastname") as (vl & Hl & _);
    [apply missing_of_nil; [exact Hmiss | cbn; tauto]|].
  destruct (lookup_truthy_Some d "phoneNumber") as (vph & Hph & _);
    [apply missing_of_nil; [exact Hmiss | cbn; tauto]|].
  unfold eval, account_data. run. cbn [py_getitem py_get].
  rewrite He, Hp, Hf, Hl, Hph. run.
  destruct ve; cbn [py_strip]; run; cbn [fst];
    try (intros [= <-]; exists "email"; eexists;
         split; [cbn; tauto|]; split; [exact He|]; split; reflexivity).
  destruct vf; cbn [py_strip]; run; cbn [fst];
    try (intros [= <-]; exists "firstname"; eexists;
         split; [cbn; tauto|]; split; [exact Hf|]; split; reflexivity).
  destruct vl; cbn [py_strip]; run; cbn [fst];
    try (intros [= <-]; exists "lastname"; eexists;
         split; [cbn; tauto|]; split; [exact Hl|]; split; reflexivity).
  destruct vph; cbn [py_strip]; run; cbn [fst];
    try (intros [= <-]; exists "phoneNumber"; eexists;
         split; [cbn; tauto|]; split; [exact Hph|]; split; reflexivity).
  discriminate.
Qed.

Lemma payload_fault_is_attribute_error_witness :
  exists field v,
    In field stripped_fields /\
    (<[ "firstname" := PyList [PyStr "Ann"] ]> sample_body) !! field = Some v /\
    is_str v = false /\
    Exn AttributeError "'list' object has no attribute 'strip'"
    = Exn AttributeError
        ("'" +:+ type_name v +:+ "' object has no attribute 'strip'").
Proof.
  apply (payload_fault_is_attribute_error
           (<[ "firstname" := PyList [PyStr "Ann"] ]> sample_body)
           (Exn AttributeError "'list' object has no attribute 'strip'"));
    reflexivity.
Defined.

(** X10: the payload sent upstream has exactly the keys [email], [password],
    [offer], [createAsDepositedAccount], [personalDetails] and
    [contactDetails], with [firstname] and [lastname] under the one and
    [phoneNumber] under the other; no other key of the request body is
    forwarded. *)
Theorem payload_has_fixed_keys up req d w :
  req_method req = "POST" ->
  req_is_json req = true ->
  req_get_json req = Return (PyDict d) ->
  valid_body d = true ->
  exists payload personal contact : gmap string pyval,
    posted (snd (create_simple_account up req w))
    = (posted w ++ [PostCall base_url default_headers (PyDict payload) 30])%list /\
    dom payload = {[ "email"; "password"; "offer"; "createAsDepositedAccount";
                     "personalDetails"; "contactDetails" ]} /\
    payload !! "personalDetails" = Some (PyDict personal) /\
    dom personal = {[ "firstname"; "lastname" ]} /\
    payload !! "contactDetails" = Some (PyDict contact) /\
    dom contact = {[ "phoneNumber" ]}.
Proof.
  intros Hm Hj Hb Hvalid. apply post_is_not_options in Hm.
  destruct (valid_body_payload d Hvalid)
    as (e & p & f & l & ph & He & Hp & Hf & Hl & Hph).
  pose proof (account_data_valid d e p f l ph He Hp Hf Hl Hph) as Hpayload.
  rewrite (run_forward_posted up req d _ w Hm Hj Hb
             (valid_body_missing d Hvalid) Hpayload).
  do 3 eexists. split; [reflexivity|].
  split; [rewrite !dom_insert_L, dom_singleton_L; set_solver|].
  split; [reflexivity|].
  split; [rewrite !dom_insert_L, dom_singleton_L; set_solver|].
  split; [reflexivity|].
  apply dom_singleton_L.
Qed.

(** A body with two keys the relay does not know: they are not sent. *)
Lemma payload_has_fixed_keys_witness :
  exists payload personal contact : gmap string pyval,
    posted (snd (create_simple_account upstream_created
                   (post_request
                      (PyDict (<[ "role" := PyStr "admin" ]>
                                 (<[ "leverage" := PyInt 500 ]> sample_body))))
                   world0))
    = [PostCall base_url default_headers (PyDict payload) 30] /\
    dom payload = {[ "email"; "password"; "offer"; "createAsDepositedAccount";
                     "personalDetails"; "contactDetails" ]} /\
    payload !! "personalDetails" = Some (PyDict personal) /\
    dom personal = {[ "firstname"; "lastname" ]} /\
    payload !! "contactDetails" = Some (PyDict contact) /\
    dom contact = {[ "phoneNumber" ]}.
Proof.
  apply (payload_has_fixed_keys upstream_created
           (post_request
              (PyDict (<[ "role" := PyStr "admin" ]>
                         (<[ "leverage" := PyInt 500 ]> sample_body))))
           (<[ "role" := PyStr "admin" ]> (<[ "leverage" := PyInt 500 ]> sample_body))
           world0); reflexivity.
Defined.

(** X11: a [createAsDepositedAccount] that the request supplies is forwarded
    as it is, whatever its JSON type; the default [False] applies only when
    the key is absent, so an explicit [null] is forwarded as [null]. *)
Theorem deposited_flag_forwarded_verbatim up req d w v :
  req_method req = "POST" ->
  req_is_json req = true ->
  req_get_json req = Return (PyDict d) ->
  valid_body d = true ->
  d !! "createAsDepositedAccount" = Some v ->
  exists payload,
    posted (snd (create_simple_account up req w))
    = (posted w ++ [PostCall base_url default_headers payload 30])%list /\
    payload_field payload "createAsDepositedAccount" = Some v.
Proof.
  intros Hm Hj Hb Hvalid Hv. apply post_is_not_options in Hm.
  destruct (valid_body_payload d Hvalid)
    as (e & p & f & l & ph & He & Hp & Hf & Hl & Hph).
  pose proof (account_data_valid d e p f l ph He Hp Hf Hl Hph) as Hpayload.
  rewrite (run_forward_posted up req d _ w Hm Hj Hb
             (valid_body_missing d Hvalid) Hpayload).
  eexists. split; [reflexivity|]. rewrite Hv. reflexivity.
Qed.

Lemma deposited_flag_forwarded_verbatim_witness :
  exists payload,
    posted (snd (create_simple_account upstream_created
                   (post_request
                      (PyDict (<[ "createAsDepositedAccount" := PyNone ]> sample_body)))
                   world0))
    = [PostCall base_url default_headers payload 30] /\
    payload_field payload "createAsDepositedAccount" = Some PyNone.
Proof.
  apply (deposited_flag_forwarded_verbatim upstream_created
           (post_request
              (PyDict (<[ "createAsDepositedAccount" := PyNone ]> sample_body)))
           (<[ "createAsDepositedAccount" := PyNone ]> sample_body) world0 PyNone);
    reflexivity.
Defined.

(** X12: what goes upstream for a stripped field is the submitted string
    without a run of whitespace at its start and at its end: the submitted
    string is [pre ++ core ++ post] with [pre] and [post] all whitespace, the
    forwarded [core] neither starts nor ends with whitespace, and stripping
    [core] again changes nothing. *)
Theorem forwarded_value_is_core up req d w field s :
  req_method req = "POST" ->
  req_is_json req = true ->
  req_get_json req = Return (PyDict d) ->
  valid_body d = true ->
  In field stripped_fields ->
  d !! field = Some (PyStr s) ->
  exists payload pre core post,
    posted (snd (create_simple_account up req w))
    = (posted w ++ [PostCall base_url default_headers payload 30])%list /\
    payload_field payload field = Some (PyStr core) /\
    s = pre +:+ core +:+ post /\
    all_space pre = true /\ all_space post = true /\
    starts_with_space core = false /\ ends_with_space core = false /\
    strip core = core.
Proof.
  intros Hm Hj Hb Hvalid Hin Hs. apply post_is_not_options in Hm.
  destruct (valid_body_payload d Hvalid)
    as (e & p & f & l & ph & He & Hp & Hf & Hl & Hph).
  pose proof (account_data_valid d e p f l ph He Hp Hf Hl Hph) as Hpayload.
  rewrite (run_forward_posted up req d _ w Hm Hj Hb
             (valid_body_missing d Hvalid) Hpayload).
  destruct (strip_split s) as (pre & post & Hsplit & Hpre & Hpost & Hhead & Hlast).
  exists (PyDict
      {[ "email" := PyStr (strip e);
         "password" := p;
         "offer" := default (PyStr default_offer) (d !! "offer");
         "createAsDepositedAccount" :=
           default (PyBool false) (d !! "createAsDepositedAccount");
         "personalDetails" :=
           PyDict {[ "firstname" := PyStr (strip f);
                     "lastname" := PyStr (strip l) ]};
         "contactDetails" := PyDict {[ "phoneNumber" := PyStr (strip ph) ]} ]}),
    pre, (strip s), post.
  split; [reflexivity|].
  split.
  { cbn in Hin. destruct Hin as [<-|[<-|[<-|[<-|[]]]]].
    - rewrite He in Hs. injection Hs as ->. reflexivity.
    - rewrite Hf in Hs. injection Hs as ->. reflexivity.
    - rewrite Hl in Hs. injection Hs as ->. reflexivity.
    - rewrite Hph in Hs. injection Hs as ->. reflexivity. }
  split; [exact Hsplit|]. split; [exact Hpre|]. split; [exact Hpost|].
  split; [exact Hhead|]. split; [exact Hlast|]. apply strip_idempotent.
Qed.

Lemma forwarded_value_is_core_witness :
  exists payload pre core post,
    posted (snd (create_simple_account upstream_created
                   (post_request (PyDict sample_body)) world0))
    = [PostCall base_url default_headers payload 30] /\
    payload_field payload "phoneNumber" = Some (PyStr core) /\
    " +1 555 0100 " = pre +:+ core +:+ post /\
    all_space pre = true /\ all_space post = true /\
    starts_with_space core = false /\ ends_with_space core = false /\
    strip core = core.
Proof.
  apply (forwarded_value_is_core upstream_created
           (post_request (PyDict sample_body)) sample_body world0
           "phoneNumber" " +1 555 0100 ");
    first [reflexivity | cbn; tauto].
Defined.

(** ** More on validation and on the status *)

(** X13: on an object body, required-field validation passes exactly when
    each of the five required keys is present with a truthy value; the type
    of the value plays no part. *)
Theorem validation_passes_iff d :
  eval (missing_fields (PyDict d)) = Return []
  <-> forall field, In field required_fields ->
                    exists v, d !! field = Some v /\ truthy v = true.
Proof.
  rewrite missing_fields_eval. split.
  - intros [= Hnil] field Hin.
    apply lookup_truthy_Some, missing_of_nil; assumption.
  - intros Hall. f_equal. unfold missing_of.
    assert (Hf : forall field, In field required_fields ->
                 negb (lookup_truthy d field) = false).
    { intros field Hin. destruct (Hall field Hin) as (v & Hv & Ht).
      unfold lookup_truthy. rewrite Hv. cbn. rewrite Ht. reflexivity. }
    induction required_fields as [|x l IH]; [reflexivity|].
    cbn [List.filter]. rewrite (Hf x (or_introl eq_refl)).
    apply IH.
    + intros field Hin. apply Hall. right. exact Hin.
    + intros field Hin. apply Hf. right. exact Hin.
Qed.

(** X14: for a service result whose [success] is falsy, the HTTP status is
    the result's [status_code], and 500 when that key is absent or bound to
    [None]. *)
Theorem failed_status_defaults_to_500 (result : gmap string pyval) v w :
  result !! "success" = Some v ->
  truthy v = false ->
  fst (status_code (PyDict result) w)
  = Return (match result !! "status_code" with
            | None | Some PyNone => PyInt 500
            | Some code => code
            end).
Proof.
  intros Hs Hv. unfold status_code. run. cbn [py_getitem]. rewrite Hs. run.
  rewrite Hv. cbn [py_get]. run. cbn [fst].
  destruct (result !! "status_code") as [[]|]; reflexivity.
Qed.

Lemma failed_status_defaults_to_500_witness :
  fst (status_code (PyDict {[ "success" := PyInt 0; "error" := PyStr "no" ]}) world0)
  = Return (PyInt 500)
  /\
  fst (status_code (PyDict {[ "success" := PyBool false;
                              "status_code" := PyInt 422 ]}) world0)
  = Return (PyInt 422).
Proof.
  split.
  - exact (failed_status_defaults_to_500
             {[ "success" := PyInt 0; "error" := PyStr "no" ]} (PyInt 0) world0
             eq_refl eq_refl).
  - exact (failed_status_defaults_to_500
             {[ "success" := PyBool false; "status_code" := PyInt 422 ]}
             (PyBool false) world0 eq_refl eq_refl).
Defined.

(** ** The upstream body *)

(** X15: the [data] of a relayed response is [{}] when the upstream content
    is empty (whatever decoding it would give), and
    [{"raw_text": <text>}] when the content is not empty and does not decode
    as JSON, that is when [response.json()] raises a JSON decode error. *)
Theorem upstream_body_fallbacks up req d w payload r :
  req_method req = "POST" ->
  req_is_json req = true ->
  req_get_json req = Return (PyDict d) ->
  eval (missing_fields (PyDict d)) = Return [] ->
  eval (account_data (PyDict d)) = Return payload ->
  up (PostCall base_url default_headers payload 30) = Responds r ->
  exists (m : gmap string pyval) code,
    fst (create_simple_account up req w) = Return (FlaskResponse (PyDict m) code) /\
    (resp_content r = EmptyString -> m !! "data" = Some (PyDict ∅)) /\
    (forall e,
       resp_content r ≠ EmptyString -> resp_json r = Raise e ->
       is_JSONDecodeError (exn_cls e) = true ->
       m !! "data" = Some (PyDict {[ "raw_text" := PyStr (resp_text r) ]})).
Proof.
  intros Hm Hj Hb Hmiss He Hup.
  apply post_is_not_options in Hm. apply missing_fields_eval_nil in Hmiss.
  fold (call_with payload) in Hup.
  destruct (body_fault r) as [e|] eqn:Hbody.
  - destruct (run_forward_fault up req Hm Hj d payload e w Hb Hmiss He) as [lg Hrun].
    { rewrite Hup. exact Hbody. }
    rewrite Hrun. do 2 eexists. split; [reflexivity|].
    unfold body_fault in Hbody. split.
    + intros Hc. rewrite Hc in Hbody. discriminate Hbody.
    + intros e' Hc Hj' Hcls. rewrite Hj', Hcls in Hbody.
      destruct (resp_content r); discriminate Hbody.
  - destruct (run_forward_responds up req Hm Hj d payload r w Hb Hmiss He Hup Hbody)
      as [lg Hrun].
    rewrite Hrun. do 2 eexists. split; [reflexivity|].
    change (({[ "success" := PyBool (py_in (resp_status_code r) [200; 201]);
                "status_code" := PyInt (resp_status_code r);
                "data" := parsed_body r;
                "message" :=
                  PyStr (if py_in (resp_status_code r) [200; 201]
                         then "Account created successfully"
                         else "Account creation failed") ]} : gmap string pyval)
            !! "data") with (Some (parsed_body r)).
    unfold parsed_body. split.
    + intros ->. reflexivity.
    + intros e Hc Hj' _. destruct (resp_content r); [contradiction|].
      rewrite Hj'. reflexivity.
Qed.

Lemma upstream_body_fallbacks_witness :
  exists (m : gmap string pyval) code,
    fst (create_simple_account
           (fun _ => Responds (HttpResponse 502 ∅ "Bad Gateway" "Bad Gateway"
                                 (Raise (Exn RequestsJSONDecodeError
                                           "Expecting value: line 1 column 1 (char 0)"))))
           (post_request (PyDict sample_body)) world0)
    = Return (FlaskResponse (PyDict m) code) /\
    m !! "data" = Some (PyDict {[ "raw_text" := PyStr "Bad Gateway" ]}).
Proof.
  destruct (upstream_body_fallbacks
              (fun _ => Responds (HttpResponse 502 ∅ "Bad Gateway" "Bad Gateway"
                                    (Raise (Exn RequestsJSONDecodeError
                                              "Expecting value: line 1 column 1 (char 0)"))))
              (post_request (PyDict sample_body)) sample_body world0 _
              (HttpResponse 502 ∅ "Bad Gateway" "Bad Gateway"
                 (Raise (Exn RequestsJSONDecodeError
                           "Expecting value: line 1 column 1 (char 0)")))
              eq_refl eq_refl eq_refl eq_refl eq_refl eq_refl)
    as (m & code & Hresp & _ & Hraw).
  exists m, code. split; [exact Hresp|].
  apply (Hraw (Exn RequestsJSONDecodeError "Expecting value: line 1 column 1 (char 0)"));
    [discriminate | reflexivity | reflexivity].
Defined.

(** ** What reaches the log *)

Lemma create_account_logged up payload w :
  logged (snd (create_account up payload w))
  = (logged w ++ service_log (up (call_with payload)))%list.
Proof.
  assert (Hfault : forall e w1,
    logged (snd ((if is_Timeout (exn_cls e) then
         logger ERROR [Text "Request timeout"] ;;;
         ret (PyDict {[ "success" := PyBool false;
                        "error" := PyStr "Request timed out. Please try again.";
                        "status_code" := PyNone ]})
       else if is_ConnectionError (exn_cls e) then
         logger ERROR [Text "Connection error: "; Text (exn_text e)] ;;;
         ret (PyDict {[ "success" := PyBool false;
                        "error" := PyStr "Connection error. Please check your internet connection.";
                        "status_code" := PyNone ]})
       else if is_RequestException (exn_cls e) then
         logger ERROR [Text "Request error: "; Text (exn_text e)] ;;;
         ret (PyDict {[ "success" := PyBool false;
                        "error" := PyStr "Network error occurred. Please try again.";
                        "status_code" := PyNone ]})
       else
         logger ERROR [Text "Unexpected error: "; Text (exn_text e)] ;;;
         ret (PyDict {[ "success" := PyBool false;
                        "error" := PyStr "An unexpected error occurred. Please try again.";
                        "status_code" := PyNone ]})) w1))
    = (logged w1 ++ [fault_log e])%list).
  { intros e w1. unfold fault_log.
    destruct (is_Timeout (exn_cls e)); [|destruct (is_ConnectionError (exn_cls e));
      [|destruct (is_RequestException (exn_cls e))]]; run; reflexivity. }
  unfold create_account, service_log, service_fault. run.
  unfold post at 1. fold (call_with payload).
  destruct (up (call_with payload)) as [r|e]; cbn [logged posted]; run.
  - unfold body_fault.
    destruct (resp_content r); cbn [String.length Nat.eqb negb]; run.
    + cbn [snd logged]. rewrite <- !app_assoc. reflexivity.
    + destruct (resp_json r) as [v|e]; run.
      * cbn [snd logged]. rewrite <- !app_assoc. reflexivity.
      * destruct (is_JSONDecodeError (exn_cls e)); run.
        -- cbn [snd logged]. rewrite <- !app_assoc. reflexivity.
        -- rewrite Hfault. cbn [logged]. rewrite <- !app_assoc. reflexivity.
  - rewrite Hfault. cbn [logged]. rewrite <- !app_assoc. reflexivity.
Qed.

Lemma status_code_logged (result : gmap string pyval) v w :
  result !! "success" = Some v ->
  logged (snd (status_code (PyDict result) w))
  = (logged w ++
     [ if truthy v then (INFO, [Text "Account created successfully"])
       else (ERROR, [Text "Account creation failed: ";
                     Fmt (default (PyStr "Unknown error") (result !! "error"))]) ])%list.
Proof.
  intros Hs. unfold status_code. run. cbn [py_getitem]. rewrite Hs. run.
  destruct (truthy v); cbn [py_get]; run; reflexivity.
Qed.

(** The log of a forwarded request, record by record. *)
Lemma run_forward_logged up req d payload w :
  String.eqb (req_method req) "OPTIONS" = false -> req_is_json req = true ->
  req_get_json req = Return (PyDict d) -> missing_of d = [] ->
  eval (account_data (PyDict d)) = Return payload ->
  logged (snd (create_simple_account up req w))
  = (logged w ++ forward_log (req_method req)
                   (default (PyStr "unknown") (d !! "email"))
                   (up (call_with payload)))%list.
Proof.
  intros Hm Hj Hb Hmiss He. unfold create_simple_account, forward_log.
  rewrite Hm, Hj. cbn [negb]. run.
  unfold get_json at 1. rewrite Hb. run.
  rewrite (truthy_dict _ (missing_of_nil_nonempty _ Hmiss)). cbn [negb]. run.
  cbn [py_get]. run. rewrite missing_fields_dict, Hmiss. run.
  rewrite pure_account_data, He. run. cbn [logged posted].
  match goal with
  | |- context [create_account up payload ?w1] =>
      pose proof (create_account_logged up payload w1) as Hlog;
      destruct (service_fault (up (call_with payload))) as [e|] eqn:Hf;
      [ destruct (create_account_fault up payload e w1 Hf) as [lg1 Hrun]
      | destruct (service_fault_None _ Hf) as (r & Hup & Hbody);
        destruct (create_account_responds up payload r w1 Hup Hbody) as [lg1 Hrun] ];
      rewrite Hrun in Hlog |- *; cbn [snd logged] in Hlog; subst lg1
  end.
  - run.
    match goal with
    | |- context [status_code (PyDict ?res) ?w2] =>
        pose proof (status_code_logged res _ w2 eq_refl) as Hlog2;
        destruct (status_code_failure res w2 eq_refl) as [lg2 Hrun2];
        rewrite Hrun2 in Hlog2 |- *; cbn [snd logged] in Hlog2; subst lg2
    end.
    run. cbn [snd logged truthy]. unfold verdict_log. rewrite Hf.
    rewrite <- !app_assoc. reflexivity.
  - run. destruct (py_in (resp_status_code r) [200; 201]) eqn:Hin.
    + match goal with
      | |- context [status_code (PyDict ?res) ?w2] =>
          pose proof (status_code_logged res _ w2 eq_refl) as Hlog2;
          destruct (status_code_success res w2 eq_refl) as [lg2 Hrun2];
          rewrite Hrun2 in Hlog2 |- *; cbn [snd logged] in Hlog2; subst lg2
      end.
      run. cbn [snd logged truthy]. unfold verdict_log. rewrite Hf, Hup, Hin.
      rewrite <- !app_assoc. reflexivity.
    + match goal with
      | |- context [status_code (PyDict ?res) ?w2] =>
          pose proof (status_code_logged res _ w2 eq_refl) as Hlog2;
          destruct (status_code_failure res w2 eq_refl) as [lg2 Hrun2];
          rewrite Hrun2 in Hlog2 |- *; cbn [snd logged] in Hlog2; subst lg2
      end.
      run. cbn [snd logged truthy]. unfold verdict_log. rewrite Hf, Hup, Hin.
      rewrite <- !app_assoc. reflexivity.
Qed.

(** X16: when the outbound call raises, [create_account] writes exactly one
    ERROR record after its opening INFO record.  For a timeout the record is
    the bare "Request timeout" and the exception text is dropped; for every
    other failure the record is a label followed by the exception text. *)
Theorem failure_logged_once up payload e w :
  up (PostCall base_url default_headers payload 30) = Raises e ->
  (is_Timeout (exn_cls e) = true ->
   logged (snd (create_account up payload w))
   = (logged w ++ [ (INFO, [Text "Attempting to create account..."]);
                    (ERROR, [Text "Request timeout"]) ])%list) /\
  (is_Timeout (exn_cls e) = false ->
   exists label,
     logged (snd (create_account up payload w))
     = (logged w ++ [ (INFO, [Text "Attempting to create account..."]);
                      (ERROR, [Text label; Text (exn_text e)]) ])%list).
Proof.
  intros Hup. rewrite create_account_logged. fold (call_with payload) in Hup.
  rewrite Hup. unfold service_log, service_fault, fault_log. cbn [app].
  split; intros Ht; rewrite Ht.
  - reflexivity.
  - destruct (is_ConnectionError (exn_cls e));
      [|destruct (is_RequestException (exn_cls e))]; eexists; reflexivity.
Qed.

Lemma failure_logged_once_witness :
  exists label,
    logged (snd (create_account
                   (fun _ => Raises (Exn ConnectionError "Connection refused"))
                   (PyDict sample_body) world0))
    = [ (INFO, [Text "Attempting to create account..."]);
        (ERROR, [Text label; Text "Connection refused"]) ].
Proof.
  exact (proj2 (failure_logged_once
                  (fun _ => Raises (Exn ConnectionError "Connection refused"))
                  (PyDict sample_body)
                  (Exn ConnectionError "Connection refused") world0 eq_refl)
               eq_refl).
Defined.

(** X17: the log of a forwarded request depends on the request only through
    its method and the value of [email]: two valid requests with the same
    method and [email] to which the upstream does the same thing leave the
    same log, whatever their [password], names, phone number, offer and other
    keys are. *)
Theorem forward_log_ignores_other_fields up1 up2 req1 req2 d1 d2 p1 p2 w :
  req_method req1 = "POST" -> req_method req2 = "POST" ->
  req_is_json req1 = true -> req_is_json req2 = true ->
  req_get_json req1 = Return (PyDict d1) ->
  req_get_json req2 = Return (PyDict d2) ->
  eval (missing_fields (PyDict d1)) = Return [] ->
  eval (missing_fields (PyDict d2)) = Return [] ->
  eval (account_data (PyDict d1)) = Return p1 ->
  eval (account_data (PyDict d2)) = Return p2 ->
  d1 !! "email" = d2 !! "email" ->
  up1 (PostCall base_url default_headers p1 30)
  = up2 (PostCall base_url default_headers p2 30) ->
  logged (snd (create_simple_account up1 req1 w))
  = logged (snd (create_simple_account up2 req2 w)).
Proof.
  intros Hm1 Hm2 Hj1 Hj2 Hb1 Hb2 Hv1%missing_fields_eval_nil
         Hv2%missing_fields_eval_nil He1 He2 Hemail Hup.
  rewrite (run_forward_logged up1 req1 d1 p1 w
             (post_is_not_options _ Hm1) Hj1 Hb1 Hv1 He1).
  rewrite (run_forward_logged up2 req2 d2 p2 w
             (post_is_not_options _ Hm2) Hj2 Hb2 Hv2 He2).
  unfold call_with. rewrite Hm1, Hm2, Hemail, Hup. reflexivity.
Qed.

(** Two bodies that differ in the password and carry different extra keys. *)
Lemma forward_log_ignores_other_fields_witness :
  logged (snd (create_simple_account upstream_created
                 (post_request (PyDict sample_body)) world0))
  = logged (snd (create_simple_account upstream_created
                   (post_request
                      (PyDict (<[ "password" := PyStr "hunter2" ]>
                                 (<[ "offer" := PyStr "gold" ]> sample_body))))
                   world0)).
Proof.
  eapply (forward_log_ignores_other_fields upstream_created upstream_created
           (post_request (PyDict sample_body))
           (post_request (PyDict (<[ "password" := PyStr "hunter2" ]>
                                    (<[ "offer" := PyStr "gold" ]> sample_body))))
           sample_body
           (<[ "password" := PyStr "hunter2" ]> (<[ "offer" := PyStr "gold" ]> sample_body)));
    reflexivity.
Defined.
